(** * Deskly website: the OAuth relay of [server.js]

    A shallow embedding of the request handlers of [server.js] (the callback
    relay, the token codec wrappers [signToken] / [verifyToken], the [/api/me]
    endpoint and the two HTML templates) together with the properties the
    specification states about them.

    Conventions of the embedding.
    - A JavaScript string is a [string] holding its UTF-8 bytes.  Every string
      operation of [server.js] that is modelled here searches for ASCII
      characters only ([&], [<], [@], the prefix [Bearer ]), so it acts on the
      bytes exactly as it acts on the UTF-16 code units.
    - Time is the clock of [jsonwebtoken]: whole seconds since the epoch, a [Z].
    - What [server.js] imports and does not define ([jsonwebtoken], the WorkOS
      SDK, [JSON.parse], [String.prototype.charAt] / [toUpperCase]) and the
      environment of the process are the fields of the class [Platform]; the
      constructor of the SDK client and the module variable [workos] are the
      fields of the class [Sdk].  The handlers and the theorems are stated
      over any platform and client, and a reference platform instantiates
      them on concrete requests.
    - A handler is a function from the request (and the clock) to the trace of
      the calls it makes on [res] and on the provider, in program order.  The
      rate limiter and the other middleware in front of a handler are not
      part of it. *)

From Stdlib Require Import ZArith Bool Ascii String List Lia QArith_base.
From stdpp Require Import base option gmap strings.
From stdpp Require Import pretty.

Set Warnings "-register-all".
Open Scope string_scope.
Open Scope Z_scope.

(* ===================================================================== *)
(** * JavaScript values *)
(* ===================================================================== *)

(** The double quote, as a character and as a one-character string. *)
Definition dquote : ascii := "034"%char.
Definition dq : string := String dquote EmptyString.

(** [!s] is false exactly for the non-empty strings. *)
Definition truthy (s : string) : bool :=
  match s with
  | EmptyString => false
  | String _ _ => true
  end.

(** A field that is [string | null | undefined]: [None] is null/undefined. *)
Definition truthy_opt (o : option string) : bool :=
  match o with
  | Some s => truthy s
  | None => false
  end.

(** [o || d] on such a field. *)
Definition or_default (o : option string) (d : string) : string :=
  match o with
  | Some s => if truthy s then s else d
  | None => d
  end.

(** [o || null]. *)
Definition or_null (o : option string) : option string :=
  match o with
  | Some s => if truthy s then Some s else None
  | None => None
  end.

(** [s.replace(/c/g, r)] for a one-character pattern [c]. *)
Fixpoint replaceAll (c : ascii) (r : string) (s : string) : string :=
  match s with
  | EmptyString => EmptyString
  | String a s' =>
      if Ascii.eqb a c then r +:+ replaceAll c r s'
      else String a (replaceAll c r s')
  end.

(** [s.split(c)[0]]: what stands before the first [c], all of [s] when it
    holds no [c]. *)
Fixpoint split_head (c : ascii) (s : string) : string :=
  match s with
  | EmptyString => EmptyString
  | String a s' => if Ascii.eqb a c then EmptyString else String a (split_head c s')
  end.

(** [s.startsWith(p)]. *)
Fixpoint startsWith (p s : string) : bool :=
  match p, s with
  | EmptyString, _ => true
  | String a p', String b s' => Ascii.eqb a b && startsWith p' s'
  | String _ _, EmptyString => false
  end.

(** [s.slice(n)] for [0 <= n]. *)
Fixpoint slice (n : nat) (s : string) : string :=
  match n, s with
  | O, _ => s
  | S n', String _ s' => slice n' s'
  | S _, EmptyString => EmptyString
  end.

(** Occurrences of a character, and of a string, in a string. *)
Fixpoint count_char (c : ascii) (s : string) : nat :=
  match s with
  | EmptyString => O
  | String a s' => ((if Ascii.eqb a c then 1 else 0) + count_char c s')%nat
  end.

Fixpoint includes (p s : string) : bool :=
  startsWith p s ||
  match s with
  | EmptyString => false
  | String _ s' => includes p s'
  end.

(** ** Query-string values

    [req.query] as Express's query parser builds it: a value is a string, an
    array ([?code=a&code=b]) or an object ([?code[k]=v]). *)
Inductive QVal : Type :=
| QStr (s : string)
| QArr (items : list QVal)
| QObj (members : list (string * QVal)).

(** [!v] is false for every array and object, and for the non-empty strings. *)
Definition q_truthy (v : option QVal) : bool :=
  match v with
  | None => false
  | Some (QStr s) => truthy s
  | Some (QArr _) | Some (QObj _) => true
  end.

(** [String(v)]: an array joins the strings of its items with commas. *)
Fixpoint q_String (v : QVal) : string :=
  match v with
  | QStr s => s
  | QArr items => String.concat "," (map q_String items)
  | QObj _ => "[object Object]"
  end.

(** ** JSON values, as [JSON.parse] returns them *)
Inductive JSON : Type :=
| JNull
| JBool (b : bool)
| JNumber (q : Q)
| JString (s : string)
| JArray (items : list JSON)
| JObject (members : list (string * JSON)).

(** A JavaScript value read out of a parsed document: [None] is [undefined]. *)
Definition JSValue : Type := option JSON.

Definition js_truthy (v : JSValue) : bool :=
  match v with
  | None | Some JNull => false
  | Some (JBool b) => b
  | Some (JNumber q) => negb (Qeq_bool q 0)
  | Some (JString s) => truthy s
  | Some (JArray _) | Some (JObject _) => true
  end.

(** [v || d]. *)
Definition js_or (v : JSValue) (d : JSON) : JSON :=
  match v with
  | Some j => if js_truthy v then j else d
  | None => d
  end.

(** [v === s] for a string [s]: only the same string is strictly equal. *)
Definition strict_eq_string (v : JSValue) (s : string) : bool :=
  match v with
  | Some (JString s') => String.eqb s' s
  | _ => false
  end.

Fixpoint assoc {A : Type} (k : string) (l : list (string * A)) : option A :=
  match l with
  | [] => None
  | (k', v) :: l' => if String.eqb k' k then Some v else assoc k l'
  end.

(** [parsed.k] for the keys that [server.js] reads ([n], [source],
    [device_id]; none of them is a property of a prototype): [null] has no
    properties and reading one throws a [TypeError], an object yields its
    member or [undefined], every other value yields [undefined]. *)
Definition getProp (parsed : JSON) (k : string) : option JSValue :=
  match parsed with
  | JNull => None
  | JObject members => Some (assoc k members)
  | _ => Some None
  end.

(* ===================================================================== *)
(** * Data model *)
(* ===================================================================== *)

(** Identity claims, the [user] the provider returns at the code exchange. *)
Module User.
Record t : Type := mk {
  id : string;
  email : string;
  firstName : option string;
  lastName : option string;
  profilePictureUrl : option string
}.
End User.

(** The object [signToken] hands to [jwt.sign]. *)
Module Payload.
Record t : Type := mk {
  sub : string;
  email : string;
  name : string;
  picture : option string
}.
End Payload.

(** The decoded session token, as [jwt.verify] returns it: the payload with
    the issued-at and expiry stamps of [jwt.sign]. *)
Module Claims.
Record t : Type := mk {
  sub : string;
  email : string;
  name : string;
  picture : option string;
  iat : Z;
  exp : Z
}.
End Claims.

(** The payload [p] stamped at [t0] with a lifetime of [ttl] seconds. *)
Definition stamp (p : Payload.t) (t0 ttl : Z) : Claims.t :=
  Claims.mk (Payload.sub p) (Payload.email p) (Payload.name p)
            (Payload.picture p) t0 (t0 + ttl).

(** What [jwt.verify] throws. *)
Inductive JwtError : Type :=
| TokenExpiredError
| NotBeforeError
| JsonWebTokenError (message : string).

(** An exception that reaches [next(err)]. *)
Record Error : Type := { message : option string }.

(** The flow context threaded through the provider's [state]. *)
Record Context : Type := { source : JSON; device_id : JSON }.

(** [process.env], the variables [server.js] reads. *)
Record Env : Type := {
  NODE_ENV : option string;
  JWT_SECRET : option string;
  DESKTOP_SCHEME : option string;
  WORKOS_API_KEY : option string;
  WORKOS_CLIENT_ID : option string
}.

(** An inbound request: the parsed query string, the cookies of
    [cookie-parser] (the string-valued ones; a value that starts with [j:]
    is read as JSON there and is not modelled) and the [Authorization]
    header. *)
Record Request : Type := {
  query : gmap string QVal;
  cookies : gmap string string;
  authorization : option string
}.

Record CookieOptions : Type := {
  httpOnly : bool;
  secure : bool;
  sameSite : string;
  maxAge : Z;
  path : option string
}.

(** The body of [res.json]. *)
Inductive JsonBody : Type :=
| ErrorBody (error : string)
| UserBody (user : Claims.t).

(** What a handler does, one constructor per call. *)
Inductive Effect : Type :=
| Status (code : Z)
| Send (body : string)
| Json (body : JsonBody)
| Redirect (location : string)
| Cookie (name value : string) (options : CookieOptions)
| ClearCookie (name : string) (path : option string)
| AuthenticateWithCode (clientId : option string) (code : string)
| ConsoleError (err : Error).

(** The status line of the response a trace produces: 200 unless
    [res.status] or [res.redirect] set another. *)
Fixpoint status_from (current : Z) (trace : list Effect) : Z :=
  match trace with
  | [] => current
  | Status code :: rest => status_from code rest
  | Redirect _ :: rest => status_from 302 rest
  | _ :: rest => status_from current rest
  end.

Definition response_status (trace : list Effect) : Z := status_from 200 trace.

Definition is_provider_call (e : Effect) : bool :=
  match e with AuthenticateWithCode _ _ => true | _ => false end.

Definition provider_calls (trace : list Effect) : nat :=
  length (filter is_provider_call trace).

Definition is_cookie_set (name : string) (e : Effect) : bool :=
  match e with Cookie n _ _ => String.eqb n name | _ => false end.

Definition is_cookie_cleared (name : string) (e : Effect) : bool :=
  match e with ClearCookie n _ => String.eqb n name | _ => false end.

(** Every body the trace sends, as text or as JSON. *)
Definition sent_text (trace : list Effect) : list string :=
  flat_map (fun e => match e with Send b => [b] | _ => [] end) trace.

Definition sent_claims (trace : list Effect) : list Claims.t :=
  flat_map (fun e => match e with Json (UserBody u) => [u] | _ => [] end) trace.

Definition redirects (trace : list Effect) : list string :=
  flat_map (fun e => match e with Redirect l => [l] | _ => [] end) trace.

(* ===================================================================== *)
(** * The HTML templates

    The literal text of the template strings of [server.js], cut at each
    interpolation [${...}]; a double quote of the source is written [dq]. *)
(* ===================================================================== *)

(** [desktopCallbackPage], text 1 of 7. *)
Definition desktop_html_1 : string :=
  "<!DOCTYPE html>
<html lang=" +:+ dq +:+ "en" +:+ dq +:+ ">
<head>
    <meta charset=" +:+ dq +:+ "UTF-8" +:+ dq +:+ " />
    <meta name=" +:+ dq +:+ "viewport" +:+ dq +:+ " content=" +:+ dq +:+ "width=device-width, initial-scale=1" +:+ dq +:+ " />
    <title>Signed In — Deskly</title>
    <style>
        * { margin:0; padding:0; box-sizing:border-box; }
        body {
            font-family: 'Inter', system-ui, -apple-system, sans-serif;
            background: #020617;
            color: #E8E6EB;
            display: flex;
            align-items: center;
            justify-content: center;
            min-height: 100vh;
        }
        .card {
            background: #0F1117;
            border: 1px solid rgba(148,163,184,0.15);
            border-radius: 20px;
            padding: 40px 32px;
            max-width: 440px;
            width: 100%;
            text-align: center;
        }
        .check { font-size: 48px; margin-bottom: 16px; }
        h1 { font-size: 1.5rem; margin-bottom: 8px; font-weight: 600; }
        .email { color: #818CF8; font-weight: 500; }
        .hint { color: #6b7280; margin: 16px 0 24px; line-height: 1.5; font-size: 0.9rem; }
        .btn {
            display: inline-block;
            padding: 12px 28px;
            border-radius: 999px;
            border: none;
            background: linear-gradient(135deg, #818CF8, #6366F1);
            color: white;
            font-weight: 600;
            font-size: 0.95rem;
            cursor: pointer;
            text-decoration: none;
        }
        .btn:hover { filter: brightness(1.08); }
        .manual { margin-top: 16px; font-size: 0.8rem; color: #4b5563; }
        .manual a { color: #818CF8; }
    </style>
</head>
<body>
    <div class=" +:+ dq +:+ "card" +:+ dq +:+ ">
        <div class=" +:+ dq +:+ "check" +:+ dq +:+ ">✓</div>
        <h1>Welcome, ".

(** [desktopCallbackPage], text 2 of 7. *)
Definition desktop_html_2 : string :=
  "!</h1>
        <p class=" +:+ dq +:+ "email" +:+ dq +:+ ">".

(** [desktopCallbackPage], text 3 of 7. *)
Definition desktop_html_3 : string :=
  "</p>
        <p class=" +:+ dq +:+ "hint" +:+ dq +:+ ">You're all set. Click below to return to the Deskly app.</p>
        <a href=" +:+ dq.

(** [desktopCallbackPage], text 4 of 7. *)
Definition desktop_html_4 : string :=
  dq +:+ " class=" +:+ dq +:+ "btn" +:+ dq +:+ ">Open Deskly App</a>
        <p class=" +:+ dq +:+ "manual" +:+ dq +:+ ">
            Button not working? <a href=" +:+ dq.

(** [desktopCallbackPage], text 5 of 7. *)
Definition desktop_html_5 : string :=
  dq +:+ ">Click here</a> or copy this link:<br/>
            <code style=" +:+ dq +:+ "font-size:0.7rem;color:#6b7280;word-break:break-all;" +:+ dq +:+ ">".

(** [desktopCallbackPage], text 6 of 7. *)
Definition desktop_html_6 : string :=
  "</code>
        </p>
    </div>
    <script>
        // Auto-redirect to the deep link
        setTimeout(() => { window.location.href = " +:+ dq.

(** [desktopCallbackPage], text 7 of 7. *)
Definition desktop_html_7 : string :=
  dq +:+ "; }, 1500);
    </script>
</body>
</html>".

(** [accountPage], text 1 of 5. *)
Definition account_html_1 : string :=
  "<!DOCTYPE html>
<html lang=" +:+ dq +:+ "en" +:+ dq +:+ ">
<head>
    <meta charset=" +:+ dq +:+ "UTF-8" +:+ dq +:+ " />
    <meta name=" +:+ dq +:+ "viewport" +:+ dq +:+ " content=" +:+ dq +:+ "width=device-width, initial-scale=1" +:+ dq +:+ " />
    <title>Account — Deskly</title>
    <style>
        * { margin:0; padding:0; box-sizing:border-box; }
        body {
            font-family: 'Inter', system-ui, -apple-system, sans-serif;
            background: #020617;
            color: #E8E6EB;
            display: flex;
            align-items: center;
            justify-content: center;
            min-height: 100vh;
        }
        .card {
            background: #0F1117;
            border: 1px solid rgba(148,163,184,0.15);
            border-radius: 20px;
            padding: 40px 32px;
            max-width: 440px;
            width: 100%;
        }
        .avatar {
            width: 64px; height: 64px;
            border-radius: 50%;
            background: linear-gradient(135deg, #818CF8, #6366F1);
            display: flex; align-items: center; justify-content: center;
            font-size: 1.5rem; font-weight: 700; color: white;
            margin-bottom: 16px;
        }
        .avatar img { width: 100%; height: 100%; border-radius: 50%; object-fit: cover; }
        h1 { font-size: 1.4rem; font-weight: 600; margin-bottom: 4px; }
        .email { color: #A8A5B0; margin-bottom: 24px; }
        .info-row {
            display: flex; justify-content: space-between; align-items: center;
            padding: 12px 0;
            border-top: 1px solid rgba(148,163,184,0.1);
        }
        .info-label { color: #6b7280; font-size: 0.9rem; }
        .info-value { font-weight: 500; }
        .btn-logout {
            display: block; width: 100%; margin-top: 24px;
            padding: 12px 0; border-radius: 12px; border: 1px solid #EF4444;
            background: transparent; color: #EF4444; font-weight: 600;
            cursor: pointer; font-size: 0.95rem;
        }
        .btn-logout:hover { background: rgba(239,68,68,0.1); }
    </style>
</head>
<body>
    <div class=" +:+ dq +:+ "card" +:+ dq +:+ ">
        <div class=" +:+ dq +:+ "avatar" +:+ dq +:+ ">
            ".

(** [accountPage], text 2 of 5. *)
Definition account_html_2 : string :=
  "
        </div>
        <h1>".

(** [accountPage], text 3 of 5. *)
Definition account_html_3 : string :=
  "</h1>
        <p class=" +:+ dq +:+ "email" +:+ dq +:+ ">".

(** [accountPage], text 4 of 5. *)
Definition account_html_4 : string :=
  "</p>
        <div class=" +:+ dq +:+ "info-row" +:+ dq +:+ ">
            <span class=" +:+ dq +:+ "info-label" +:+ dq +:+ ">User ID</span>
            <span class=" +:+ dq +:+ "info-value" +:+ dq +:+ " style=" +:+ dq +:+ "font-size:0.8rem;color:#6b7280;" +:+ dq +:+ ">".

(** [accountPage], text 5 of 5. *)
Definition account_html_5 : string :=
  "</span>
        </div>
        <div class=" +:+ dq +:+ "info-row" +:+ dq +:+ ">
            <span class=" +:+ dq +:+ "info-label" +:+ dq +:+ ">Auth Provider</span>
            <span class=" +:+ dq +:+ "info-value" +:+ dq +:+ ">WorkOS</span>
        </div>
        <form action=" +:+ dq +:+ "/auth/logout" +:+ dq +:+ " method=" +:+ dq +:+ "post" +:+ dq +:+ ">
            <button type=" +:+ dq +:+ "submit" +:+ dq +:+ " class=" +:+ dq +:+ "btn-logout" +:+ dq +:+ ">Sign Out</button>
        </form>
    </div>
</body>
</html>".

(** [accountPage], the avatar image around the picture URL. *)
Definition avatar_img_1 : string :=
  "<img src=" +:+ dq.

Definition avatar_img_2 : string :=
  dq +:+ " alt=" +:+ dq +:+ "avatar" +:+ dq +:+ " />".

(** The error handler, text 1 of 2. *)
Definition error_html_1 : string :=
  "
        <div style=" +:+ dq +:+ "font-family:system-ui;background:#020617;color:#e5e7eb;display:flex;align-items:center;justify-content:center;min-height:100vh;" +:+ dq +:+ ">
            <div style=" +:+ dq +:+ "text-align:center;" +:+ dq +:+ ">
                <h1 style=" +:+ dq +:+ "color:#EF4444;" +:+ dq +:+ ">Something went wrong</h1>
                <p style=" +:+ dq +:+ "color:#6b7280;margin-top:8px;" +:+ dq +:+ ">".

(** The error handler, text 2 of 2. *)
Definition error_html_2 : string :=
  "</p>
                <a href=" +:+ dq +:+ "/" +:+ dq +:+ " style=" +:+ dq +:+ "color:#818CF8;margin-top:16px;display:inline-block;" +:+ dq +:+ ">Go Home</a>
            </div>
        </div>
    ".

(** [GET /account] without a configured provider: the page it sends. *)
Definition unconfigured_html : string :=
  "<!DOCTYPE html><html lang=" +:+ dq +:+ "en" +:+ dq +:+ "><head><meta charset=" +:+ dq +:+
  "UTF-8" +:+ dq +:+ "><meta name=" +:+ dq +:+ "viewport" +:+ dq +:+ " content=" +:+ dq +:+
  "width=device-width,initial-scale=1" +:+ dq +:+
  "><title>Deskly — Account</title><style>*{margin:0;padding:0;box-sizing:border-box}body{font-family:'Inter',-apple-system,system-ui,sans-serif;background:#09090b;color:#ededef;min-height:100vh;display:flex;align-items:center;justify-content:center;text-align:center;padding:24px}a{color:#818cf8;text-decoration:none}.wrap{max-width:380px}.wrap h1{font-size:1.5rem;font-weight:700;letter-spacing:-0.03em;margin-bottom:8px}.wrap p{font-size:0.88rem;color:#8b8b92;line-height:1.6;margin-bottom:24px}.btn{display:inline-flex;align-items:center;gap:8px;font-size:0.84rem;font-weight:500;padding:10px 20px;border-radius:9px;background:#fff;color:#09090b;transition:opacity 0.2s}.btn:hover{opacity:0.85}</style></head><body><div class=" +:+
  dq +:+ "wrap" +:+ dq +:+
  "><h1>Account</h1><p>Sign in is available when the server is connected to WorkOS. For now, Deskly works entirely without an account.</p><a href=" +:+
  dq +:+ "/" +:+ dq +:+ " class=" +:+ dq +:+ "btn" +:+ dq +:+
  ">← Back to home</a></div></body></html>".

(* ===================================================================== *)
(** * [server.js]: helpers that use nothing imported *)
(* ===================================================================== *)

(** [esc]: escape HTML entities, [&] first. *)
Definition esc (str : string) : string :=
  if negb (truthy str) then EmptyString
  else
    replaceAll "'" "&#39;"
      (replaceAll dquote "&quot;"
        (replaceAll ">" "&gt;"
          (replaceAll "<" "&lt;"
            (replaceAll "&" "&amp;" str)))).

(** The template [`${user.firstName}${user.lastName ? ' ' + user.lastName : ''}`],
    used when [user.firstName] is truthy. *)
Definition fullName (firstName : string) (lastName : option string) : string :=
  firstName +:+
  match lastName with
  | Some l => if truthy l then " " +:+ l else EmptyString
  | None => EmptyString
  end.

(** The object literal of [signToken]. *)
Definition tokenPayload (user : User.t) : Payload.t :=
  {| Payload.sub := User.id user;
     Payload.email := User.email user;
     Payload.name :=
       match User.firstName user with
       | Some f => if truthy f then fullName f (User.lastName user)
                   else split_head "@" (User.email user)
       | None => split_head "@" (User.email user)
       end;
     Payload.picture := or_null (User.profilePictureUrl user) |}.

(** [expiresIn: '30d'], in the seconds [jsonwebtoken] counts. *)
Definition expiresIn : Z := 30 * 24 * 60 * 60.

(** The [displayName] of [desktopCallbackPage]. *)
Definition displayName (user : User.t) : string :=
  match User.firstName user with
  | Some f => if truthy f then fullName f (User.lastName user) else User.email user
  | None => User.email user
  end.

Definition desktopCallbackPage (user : User.t) (deepLink : string) : string :=
  desktop_html_1 +:+ esc (displayName user)
  +:+ desktop_html_2 +:+ esc (User.email user)
  +:+ desktop_html_3 +:+ esc deepLink
  +:+ desktop_html_4 +:+ esc deepLink
  +:+ desktop_html_5 +:+ esc deepLink
  +:+ desktop_html_6 +:+ esc deepLink
  +:+ desktop_html_7.

(** [encodeURIComponent] on the UTF-8 bytes of a well-formed string: the
    unreserved characters stay, every other byte becomes [%XX]. *)
Definition unreserved (a : ascii) : bool :=
  let n := nat_of_ascii a in
  (((65 <=? n) && (n <=? 90)) || ((97 <=? n) && (n <=? 122))
   || ((48 <=? n) && (n <=? 57)))%nat
  || includes (String a EmptyString) "-_.!~*'()".

Definition hexDigit (n : nat) : ascii :=
  if (n <? 10)%nat then ascii_of_nat (48 + n) else ascii_of_nat (55 + n).

Definition percent (a : ascii) : string :=
  let n := nat_of_ascii a in
  String "%" (String (hexDigit (n / 16)) (String (hexDigit (n mod 16)) EmptyString)).

Fixpoint encodeURIComponent (s : string) : string :=
  match s with
  | EmptyString => EmptyString
  | String a s' =>
      (if unreserved a then String a EmptyString else percent a)
      +:+ encodeURIComponent s'
  end.

(** [decodeURIComponent], the inverse reading: [None] where it throws a
    [URIError]. *)
Definition hexValue (a : ascii) : option nat :=
  let n := nat_of_ascii a in
  if ((48 <=? n) && (n <=? 57))%nat then Some (n - 48)%nat
  else if ((65 <=? n) && (n <=? 70))%nat then Some (n - 55)%nat
  else if ((97 <=? n) && (n <=? 102))%nat then Some (n - 87)%nat
  else None.

Fixpoint decodeURIComponent (s : string) : option string :=
  match s with
  | EmptyString => Some EmptyString
  | String a s' =>
      if Ascii.eqb a "%" then
        match s' with
        | String h (String l s'') =>
            match hexValue h, hexValue l, decodeURIComponent s'' with
            | Some x, Some y, Some rest =>
                Some (String (ascii_of_nat (16 * x + y)) rest)
            | _, _, _ => None
            end
        | _ => None
        end
      else
        match decodeURIComponent s' with
        | Some rest => Some (String a rest)
        | None => None
        end
  end.

(** The characters that open or close markup and attribute values. *)
Definition markup : list ascii := ["<"; ">"; dquote; "'"]%char.

(** A user and a session with nothing to interpolate: what the templates
    render on them is their own text. *)
Definition blankUser : User.t := User.mk EmptyString EmptyString None None None.

Definition blankClaims (picture : bool) : Claims.t :=
  Claims.mk EmptyString EmptyString EmptyString
            (if picture then Some "p" else None) 0 0.

(** The context a callback starts from. *)
Definition defaultContext : Context :=
  {| source := JString "desktop"; device_id := JNull |}.

(** How the nonce check of the callback ends: the handler has answered 403,
    or it goes on with a context. *)
Inductive StateCheck : Type :=
| Rejected
| Accepted (context : Context).

(* ===================================================================== *)
(** * [server.js]: the token codec and the handlers *)
(* ===================================================================== *)

(** What [server.js] runs on and does not define: the environment of the
    process and the functions it imports. *)
Class Platform : Type := {
  (** [process.env]. *)
  env : Env;
  (** [jsonwebtoken]: [jwt_sign payload key expiresIn now] and
      [jwt_verify token key now], the clock read in seconds. *)
  jwt_sign : Payload.t -> string -> Z -> Z -> string;
  jwt_verify : string -> string -> Z -> JwtError + Claims.t;
  (** [JSON.parse]: [None] when it throws a [SyntaxError]. *)
  JSON_parse : string -> option JSON;
  (** [userManagement.authenticateWithCode({ clientId, code })] on the
      client: the [user] of its result, or what it throws. *)
  authenticateWithCode : option string -> string -> Error + User.t;
  (** [s.charAt(0)] and [s.toUpperCase()]. *)
  charAt0 : string -> string;
  toUpperCase : string -> string
}.

(** [getWorkOS]: the module variable [workos] is the state, [None] for
    [null]; [newWorkOS] is the constructor of the SDK, which reads the
    environment of the moment and may throw. *)
Section GetWorkOS.

Variable Client : Type.
Variable newWorkOS : Env -> Error + Client.

Definition getWorkOS (workos : option Client) (e : Env)
  : (Error + Client) * option Client :=
  match workos with
  | Some client => (inr client, workos)
  | None =>
      match newWorkOS e with
      | inr client => (inr client, Some client)
      | inl err => (inl err, None)
      end
  end.

(** The module variable after a run of calls, one environment per call. *)
Fixpoint getWorkOS_calls (workos : option Client) (es : list Env) : option Client :=
  match es with
  | [] => workos
  | e :: es' => getWorkOS_calls (snd (getWorkOS workos e)) es'
  end.

End GetWorkOS.

(** The SDK client as a request finds it: the constructor of the client and
    the module variable [workos], [None] while no call has built one. *)
Class Sdk : Type := {
  Client : Type;
  newWorkOS : Env -> Error + Client;
  workos : option Client
}.

(** Whether [String(v)] throws a [TypeError]: an object with a member
    [toString] of its own (the query parser of Express keeps such members,
    and none of them is a function) cannot be converted, an object without
    one is ["[object Object]"], and an array converts each of its items. *)
Fixpoint q_throws (v : QVal) : bool :=
  match v with
  | QStr _ => false
  | QArr items => existsb q_throws items
  | QObj members => existsb (fun kv => String.eqb (fst kv) "toString") members
  end.

Definition typeError : Error :=
  {| message := Some "Cannot convert object to primitive value" |}.

Section Server.

Context {platform : Platform}.
Context {sdk : Sdk}.

Definition isProduction : bool :=
  match NODE_ENV env with
  | Some v => String.eqb v "production"
  | None => false
  end.

Definition desktopScheme : string := or_default (DESKTOP_SCHEME env) "deskly".

Definition JWT_KEY : string := or_default (JWT_SECRET env) "dev-secret-change-me".

(** ** The token codec *)

Definition signToken (user : User.t) (now : Z) : string :=
  jwt_sign (tokenPayload user) JWT_KEY expiresIn now.

(** [null] is [None]. *)
Definition verifyToken (token : string) (now : Z) : option Claims.t :=
  match jwt_verify token JWT_KEY now with
  | inr claims => Some claims
  | inl _ => None
  end.

(** ** The account page *)

Definition accountPage (user : Claims.t) : string :=
  account_html_1
  +:+ (match Claims.picture user with
       | Some p =>
           if truthy p then avatar_img_1 +:+ esc p +:+ avatar_img_2
           else esc (let i := toUpperCase (charAt0 (Claims.name user)) in
                     if truthy i then i else "?")
       | None =>
           esc (let i := toUpperCase (charAt0 (Claims.name user)) in
                if truthy i then i else "?")
       end)
  +:+ account_html_2
  +:+ esc (if truthy (Claims.name user) then Claims.name user else "Deskly User")
  +:+ account_html_3 +:+ esc (Claims.email user)
  +:+ account_html_4 +:+ esc (Claims.sub user)
  +:+ account_html_5.

(** ** The error handler, where [next(err)] ends *)

Definition safeMessage (err : Error) : string :=
  if isProduction then "An unexpected error occurred. Please try again later."
  else esc (or_default (message err) "Unknown error").

Definition errorHandler (err : Error) : list Effect :=
  [ConsoleError err; Status 500;
   Send (error_html_1 +:+ safeMessage err +:+ error_html_2)].

(** ** [GET /auth/callback] *)

(** The [try] block around the nonce check.  An exception inside it
    ([JSON.parse] on a malformed state, a property read on [null]) leaves
    the default context in place. *)
Definition checkState (req : Request) (state : option QVal) : StateCheck :=
  match state with
  | None => Accepted defaultContext
  | Some v =>
      if negb (q_truthy state) then Accepted defaultContext
      else
        match JSON_parse (q_String v) with
        | None => Accepted defaultContext
        | Some parsed =>
            match cookies req !! "oauth_nonce" with
            | None => Rejected
            | Some savedNonce =>
                if negb (truthy savedNonce) then Rejected
                else
                  let outcome :=
                    n ← getProp parsed "n";
                    if negb (strict_eq_string n savedNonce) then Some Rejected
                    else
                      s ← getProp parsed "source";
                      d ← getProp parsed "device_id";
                      Some (Accepted {| source := js_or s (JString "desktop");
                                        device_id := js_or d JNull |})
                  in
                  match outcome with
                  | Some result => result
                  | None => Accepted defaultContext
                  end
            end
        end
  end.

Definition sessionCookie : CookieOptions :=
  {| httpOnly := true;
     secure := isProduction;
     sameSite := "lax";
     maxAge := 30 * 24 * 60 * 60 * 1000;
     path := None |}.

Definition deepLinkOf (token : string) : string :=
  desktopScheme +:+ "://auth/callback?token=" +:+ encodeURIComponent token.

(** What is evaluated before the provider is called, in this order:
    [getWorkOS()], which throws when the client cannot be built, and the
    argument [String(code)].  [inl] is what is thrown, with no call made;
    [inr] is the code the provider is called with. *)
Definition exchangeArgument (code : QVal) : Error + string :=
  match fst (getWorkOS Client newWorkOS workos env) with
  | inl err => inl err
  | inr _ => if q_throws code then inl typeError else inr (q_String code)
  end.

Definition auth_callback (req : Request) (now : Z) : list Effect :=
  let code := query req !! "code" in
  let state := query req !! "state" in
  match code with
  | None => [Status 400; Send "Missing authorization code from WorkOS"]
  | Some c =>
      if negb (q_truthy code) then
        [Status 400; Send "Missing authorization code from WorkOS"]
      else
        match checkState req state with
        | Rejected =>
            [Status 403;
             Send "OAuth state mismatch — possible CSRF. Please try signing in again."]
        | Accepted context =>
            ClearCookie "oauth_nonce" (Some "/auth/callback")
            :: match exchangeArgument c with
               | inl err => ConsoleError err :: errorHandler err
               | inr codeString =>
                   AuthenticateWithCode (WORKOS_CLIENT_ID env) codeString
                   :: match authenticateWithCode (WORKOS_CLIENT_ID env) codeString with
                      | inl err => ConsoleError err :: errorHandler err
                      | inr user =>
                          let token := signToken user now in
                          Cookie "deskly_token" token sessionCookie
                          :: (if strict_eq_string (Some (source context)) "web" then
                                [Redirect "/account"]
                              else
                                [Send (desktopCallbackPage user (deepLinkOf token))])
                      end
               end
        end
  end.

(** ** [GET /account] *)

Definition account (req : Request) (now : Z) : list Effect :=
  if negb (truthy_opt (WORKOS_API_KEY env)) || negb (truthy_opt (WORKOS_CLIENT_ID env)) then
    [Send unconfigured_html]
  else
    let token := cookies req !! "deskly_token" in
    let user :=
      match token with
      | Some t => if truthy t then verifyToken t now else None
      | None => None
      end in
    match user with
    | None => [Redirect "/auth/login?source=web"]
    | Some u => [Send (accountPage u)]
    end.

(** ** [GET /api/me] *)

(** The token the handler settles on: the Bearer token when the header
    starts with [Bearer ], else the session cookie, else [null]. *)
Definition requestToken (req : Request) : option string :=
  let fromCookie :=
    match cookies req !! "deskly_token" with
    | Some t => if truthy t then Some t else None
    | None => None
    end in
  match authorization req with
  | Some authHeader =>
      if startsWith "Bearer " authHeader then Some (slice 7 authHeader)
      else fromCookie
  | None => fromCookie
  end.

Definition api_me (req : Request) (now : Z) : list Effect :=
  match requestToken req with
  | None => [Status 401; Json (ErrorBody "Missing token")]
  | Some token =>
      if negb (truthy token) then [Status 401; Json (ErrorBody "Missing token")]
      else
        match verifyToken token now with
        | None => [Status 401; Json (ErrorBody "Invalid or expired token")]
        | Some user => [Json (UserBody user)]
        end
  end.

End Server.

(* ===================================================================== *)
(** * [server.js]: start-up, [/auth/login], [/auth/logout], [getWorkOS] *)
(* ===================================================================== *)

(** What [/auth/login] uses besides the platform: two more variables of the
    environment, [JSON.stringify], and the provider's
    [getWorkOS().userManagement.getAuthorizationUrl({ clientId, redirectUri,
    provider, state })]: the URL, or what building the client or the URL
    throws (the URL is built locally, so no call is recorded either way). *)
Class LoginImports : Type := {
  BASE_URL : option string;
  PORT : option string;
  JSON_stringify : JSON -> string;
  getAuthorizationUrl : option string -> string -> string -> string -> Error + string
}.

(** A query value as the JSON value [JSON.stringify] writes for it. *)
Fixpoint q_json (v : QVal) : JSON :=
  match v with
  | QStr s => JString s
  | QArr items => JArray (map q_json items)
  | QObj members => JObject (map (fun kv => (fst kv, q_json (snd kv))) members)
  end.

(** [v || d] on a query value, as a member of the state payload. *)
Definition q_or (v : option QVal) (d : JSON) : JSON :=
  match v with
  | Some q => if q_truthy v then q_json q else d
  | None => d
  end.

(** What [esc] writes for one character, and a string mapped character by
    character. *)
Definition escape_char (a : ascii) : string :=
  if Ascii.eqb a "&" then "&amp;"
  else if Ascii.eqb a "<" then "&lt;"
  else if Ascii.eqb a ">" then "&gt;"
  else if Ascii.eqb a dquote then "&quot;"
  else if Ascii.eqb a "'" then "&#39;"
  else String a EmptyString.

Fixpoint flat_map_chars (f : ascii -> string) (s : string) : string :=
  match s with
  | EmptyString => EmptyString
  | String a s' => f a +:+ flat_map_chars f s'
  end.

(** Reads the five entities of [esc] back; [skip] characters of an entity
    that was just read are still to pass over. *)
Fixpoint unescape_from (skip : nat) (s : string) : string :=
  match s with
  | EmptyString => EmptyString
  | String a s' =>
      match skip with
      | S k => unescape_from k s'
      | O =>
          if Ascii.eqb a "&" then
            if startsWith "amp;" s' then String "&" (unescape_from 4 s')
            else if startsWith "lt;" s' then String "<" (unescape_from 3 s')
            else if startsWith "gt;" s' then String ">" (unescape_from 3 s')
            else if startsWith "quot;" s' then String dquote (unescape_from 5 s')
            else if startsWith "#39;" s' then String "'" (unescape_from 4 s')
            else String a (unescape_from 0 s')
          else String a (unescape_from 0 s')
      end
  end.

(** The request without its [Authorization] header. *)
Definition without_authorization (req : Request) : Request :=
  {| query := query req; cookies := cookies req; authorization := None |}.

(** How a later request carries a token: as a Bearer token, or as the
    session cookie beside no Bearer header. *)
Definition carries (r : Request) (token : string) : Prop :=
  authorization r = Some ("Bearer " +:+ token)
  \/ (cookies r !! "deskly_token" = Some token
      /\ forall h, authorization r = Some h -> startsWith "Bearer " h = false).

(** The characters that end or split a query parameter. *)
Definition delimiters : list ascii := ["&"; "#"; "?"; "="; "/"; "+"; " "]%char.

Section Relay.

Context {platform : Platform} {imports : LoginImports}.

(** The check of the signing secret when the module loads: [None] is
    [process.exit(1)], [Some key] the [JWT_KEY] the server runs with. *)
Definition startup : option string :=
  if negb (truthy_opt (JWT_SECRET env)) && isProduction then None
  else Some JWT_KEY.

(** [port] and [baseUrl]. *)
Definition port : string := or_default PORT "4000".

Definition baseUrl : string := or_default BASE_URL ("http://localhost:" +:+ port).

(** [statePayload], for the nonce [crypto.randomBytes(24)] gave in
    base64url. *)
Definition statePayload (req : Request) (nonce : string) : JSON :=
  JObject [("n", JString nonce);
           ("device_id", q_or (query req !! "device_id") JNull);
           ("source", q_or (query req !! "source") (JString "desktop"))].

Definition nonceCookie : CookieOptions :=
  {| httpOnly := true;
     secure := isProduction;
     sameSite := "lax";
     maxAge := 10 * 60 * 1000;
     path := Some "/auth/callback" |}.

(** [GET /auth/login]; the random nonce is an argument. *)
Definition auth_login (req : Request) (nonce : string) : list Effect :=
  let state := JSON_stringify (statePayload req nonce) in
  Cookie "oauth_nonce" nonce nonceCookie
  :: match getAuthorizationUrl (WORKOS_CLIENT_ID env)
                               (baseUrl +:+ "/auth/callback") "authkit" state with
     | inr authorizationUrl => [Redirect authorizationUrl]
     | inl err => ConsoleError err :: errorHandler err
     end.

(** [POST /auth/logout] and [GET /auth/logout]: the same handler twice. *)
Definition auth_logout (req : Request) : list Effect :=
  [ClearCookie "deskly_token" None; Redirect "/"].

End Relay.

(* ===================================================================== *)
(** * Reference implementations of the imported functions

    The handlers above run on any [Platform].  The one built here is a
    small executable stand-in that meets what the theorems assume of
    [jsonwebtoken] and [JSON.parse]; it shows that the assumptions can be met
    and lets the handlers run on concrete requests. *)
(* ===================================================================== *)

Module Reference.

(** A field of a token: every character behind a [+], closed by a [.]. *)
Fixpoint put (s : string) : string :=
  match s with
  | EmptyString => "."
  | String a s' => String "+" (String a (put s'))
  end.

(** Reads one field back, with what follows it. *)
Fixpoint take (s : string) : option (string * string) :=
  match s with
  | EmptyString => None
  | String a s' =>
      if Ascii.eqb a "." then Some (EmptyString, s')
      else
        match s' with
        | EmptyString => None
        | String b s'' =>
            match take s'' with
            | Some (field, rest) => Some (String b field, rest)
            | None => None
            end
        end
  end.

(** Numbers in binary, least significant bit first. *)
Fixpoint put_pos (p : positive) : string :=
  match p with
  | xH => EmptyString
  | xO p' => String "0" (put_pos p')
  | xI p' => String "1" (put_pos p')
  end.

Fixpoint take_pos (s : string) : positive :=
  match s with
  | EmptyString => xH
  | String a s' => if Ascii.eqb a "0" then xO (take_pos s') else xI (take_pos s')
  end.

Definition put_Z (z : Z) : string :=
  match z with
  | Z0 => "z"
  | Zpos p => String "p" (put_pos p)
  | Zneg p => String "n" (put_pos p)
  end.

Definition take_Z (s : string) : option Z :=
  match s with
  | EmptyString => None
  | String a s' =>
      if Ascii.eqb a "z" then Some Z0
      else if Ascii.eqb a "p" then Some (Zpos (take_pos s'))
      else if Ascii.eqb a "n" then Some (Zneg (take_pos s'))
      else None
  end.

Definition put_opt (o : option string) : string :=
  match o with
  | None => "N"
  | Some s => String "S" s
  end.

Definition take_opt (s : string) : option (option string) :=
  match s with
  | EmptyString => None
  | String a s' =>
      if Ascii.eqb a "N" then Some None
      else if Ascii.eqb a "S" then Some (Some s')
      else None
  end.

(** [jwt.sign(payload, key, { expiresIn })] at time [now]: the key stands for
    the signature, the payload follows with its two stamps. *)
Definition jwt_sign (p : Payload.t) (key : string) (expiresIn now : Z) : string :=
  put key +:+ put (Payload.sub p) +:+ put (Payload.email p)
  +:+ put (Payload.name p) +:+ put (put_opt (Payload.picture p))
  +:+ put (put_Z now) +:+ put (put_Z (now + expiresIn)).

(** [jwt.verify(token, key)] at time [now]. *)
Definition jwt_verify (token key : string) (now : Z) : JwtError + Claims.t :=
  let malformed := inl (JsonWebTokenError "jwt malformed") in
  match take token with
  | None => malformed
  | Some (k, r1) =>
  match take r1 with
  | None => malformed
  | Some (sub, r2) =>
  match take r2 with
  | None => malformed
  | Some (email, r3) =>
  match take r3 with
  | None => malformed
  | Some (name, r4) =>
  match take r4 with
  | None => malformed
  | Some (pic, r5) =>
  match take r5 with
  | None => malformed
  | Some (iat, r6) =>
  match take r6 with
  | None => malformed
  | Some (exp, r7) =>
      match take_opt pic, take_Z iat, take_Z exp with
      | Some picture, Some iat, Some exp =>
          if negb (String.eqb r7 EmptyString) then malformed
          else if negb (String.eqb k key) then inl (JsonWebTokenError "invalid signature")
          else if exp <=? now then inl TokenExpiredError
          else inr (Claims.mk sub email name picture iat exp)
      | _, _, _ => malformed
      end
  end end end end end end end.

(** A string without quotes or backslashes as a JSON string. *)
Definition json_string (s : string) : string := dq +:+ s +:+ dq.

(** The state [/auth/login] sends for a nonce and a source, as
    [JSON.stringify] writes it, and the value [JSON.parse] reads from it. *)
Definition state_text (nonce source : string) : string :=
  "{" +:+ json_string "n" +:+ ":" +:+ json_string nonce +:+ ","
  +:+ json_string "device_id" +:+ ":null,"
  +:+ json_string "source" +:+ ":" +:+ json_string source +:+ "}".

Definition state_value (nonce source : string) : JSON :=
  JObject [("n", JString nonce); ("device_id", JNull); ("source", JString source)].

Definition documents : list (string * JSON) :=
  [ (state_text "nonce-1" "web", state_value "nonce-1" "web");
    (state_text "nonce-1" "desktop", state_value "nonce-1" "desktop");
    (state_text "nonce-2" "web", state_value "nonce-2" "web");
    ("null", JNull);
    ("{}", JObject []) ].

(** [JSON.parse] on the documents of [documents], a [SyntaxError] elsewhere. *)
Definition JSON_parse (text : string) : option JSON := assoc text documents.

Definition ada : User.t :=
  User.mk "user_01" "ada@example.com" (Some "Ada") (Some "Lovelace") None.

Definition bob : User.t :=
  User.mk "user_02" "bob@example.com" None None None.

(** The provider: two codes are good, every other one is refused. *)
Definition authenticateWithCode (clientId : option string) (code : string)
  : Error + User.t :=
  if String.eqb code "code-ada" then inr ada
  else if String.eqb code "code-bob" then inr bob
  else inl {| message := Some "invalid_grant" |}.

(** [s.charAt(0)] and [s.toUpperCase()], on ASCII text. *)
Definition charAt0 (s : string) : string :=
  match s with
  | EmptyString => EmptyString
  | String a _ => String a EmptyString
  end.

Definition upper (a : ascii) : ascii :=
  let n := nat_of_ascii a in
  if ((97 <=? n) && (n <=? 122))%nat then ascii_of_nat (n - 32) else a.

Fixpoint toUpperCase (s : string) : string :=
  match s with
  | EmptyString => EmptyString
  | String a s' => String (upper a) (toUpperCase s')
  end.

Definition env : Env :=
  {| NODE_ENV := Some "production";
     JWT_SECRET := Some "s3cret";
     DESKTOP_SCHEME := None;
     WORKOS_API_KEY := Some "sk_test_01";
     WORKOS_CLIENT_ID := Some "client_01" |}.

End Reference.

(** The reference platform. *)
Definition reference : Platform :=
  {| env := Reference.env;
     jwt_sign := Reference.jwt_sign;
     jwt_verify := Reference.jwt_verify;
     JSON_parse := Reference.JSON_parse;
     authenticateWithCode := Reference.authenticateWithCode;
     charAt0 := Reference.charAt0;
     toUpperCase := Reference.toUpperCase |}.

Module ReferenceLogin.

(** [JSON.stringify] on values whose strings hold no quote, backslash or
    control character; a number is written when it is an integer. *)
Fixpoint stringify (v : JSON) : string :=
  match v with
  | JNull => "null"
  | JBool b => if b then "true" else "false"
  | JNumber q => if Pos.eqb (Qden q) 1 then pretty (Qnum q) else "null"
  | JString s => Reference.json_string s
  | JArray items => "[" +:+ String.concat "," (map stringify items) +:+ "]"
  | JObject members =>
      "{" +:+ String.concat ","
                (map (fun kv => Reference.json_string (fst kv) +:+ ":" +:+ stringify (snd kv))
                     members)
      +:+ "}"
  end.

(** The provider's authorization URL; it throws without a client id. *)
Definition getAuthorizationUrl (clientId : option string)
    (redirectUri provider state : string) : Error + string :=
  match clientId with
  | Some c =>
      if truthy c then
        inr ("https://api.workos.com/user_management/authorize?client_id=" +:+ c
             +:+ "&provider=" +:+ provider
             +:+ "&redirect_uri=" +:+ encodeURIComponent redirectUri
             +:+ "&response_type=code&state=" +:+ encodeURIComponent state)
      else inl {| message := Some "Incomplete arguments" |}
  | None => inl {| message := Some "Incomplete arguments" |}
  end.

End ReferenceLogin.

Definition reference_login : LoginImports :=
  {| BASE_URL := Some "https://deskly.in";
     PORT := None;
     JSON_stringify := ReferenceLogin.stringify;
     getAuthorizationUrl := ReferenceLogin.getAuthorizationUrl |}.

(** The same platform outside production and without a signing secret. *)
Definition reference_dev : Platform :=
  {| env := {| NODE_ENV := None;
               JWT_SECRET := None;
               DESKTOP_SCHEME := None;
               WORKOS_API_KEY := Some "sk_test_01";
               WORKOS_CLIENT_ID := Some "client_01" |};
     jwt_sign := Reference.jwt_sign;
     jwt_verify := Reference.jwt_verify;
     JSON_parse := Reference.JSON_parse;
     authenticateWithCode := Reference.authenticateWithCode;
     charAt0 := Reference.charAt0;
     toUpperCase := Reference.toUpperCase |}.

(* ===================================================================== *)
(** * The handlers on concrete requests *)
(* ===================================================================== *)

(** A request from its query parameters, cookies and [Authorization]. *)
Definition request (q : list (string * QVal)) (c : list (string * string))
    (a : option string) : Request :=
  {| query := list_to_map q; cookies := list_to_map c; authorization := a |}.

(** A constructor of the SDK client that throws without an API key; the
    client stands for the key it was built with. *)
Definition ref_newWorkOS (e : Env) : Error + string :=
  match WORKOS_API_KEY e with
  | Some key => if truthy key then inr key
                else inl {| message := Some "No API key provided" |}
  | None => inl {| message := Some "No API key provided" |}
  end.

(** The reference client: none is built yet, and the key of the reference
    environment builds one. *)
Definition reference_sdk : Sdk :=
  {| Client := string; newWorkOS := ref_newWorkOS; workos := None |}.

(** A client that cannot be built: the constructor throws. *)
Definition keyless_sdk : Sdk :=
  {| Client := string;
     newWorkOS := fun _ => inl {| message := Some "No API key provided" |};
     workos := None |}.

(** The callback, the codec and [/api/me] on the reference implementations. *)
Definition ref_callback : Request -> Z -> list Effect :=
  auth_callback (platform := reference) (sdk := reference_sdk).

Definition ref_signToken : User.t -> Z -> string :=
  signToken (platform := reference).

Definition ref_verifyToken : string -> Z -> option Claims.t :=
  verifyToken (platform := reference).

Definition ref_api_me : Request -> Z -> list Effect :=
  api_me (platform := reference).


(** A callback without a code, although its state carries a nonce. *)
Definition req_no_code : Request :=
  request [("state", QStr (Reference.state_text "nonce-1" "web"))] [] None.


(** Callbacks whose nonce cookie is the nonce of their state: one from the
    website, one from the desktop application. *)
Definition req_web : Request :=
  request [("code", QStr "code-ada");
           ("state", QStr (Reference.state_text "nonce-1" "web"))]
          [("oauth_nonce", "nonce-1")] None.


(** Ada again, her two names in the first-name field. *)
Definition ada_one_field : User.t :=
  User.mk "user_01" "ada@example.com" (Some "Ada Lovelace") None None.

(** A request to [/api/me] with neither header nor cookie, one with a token
    nobody signed, and two with the same Bearer token and different
    session cookies. *)
Definition req_anonymous : Request := request [] [] None.

Definition req_forged : Request := request [] [("deskly_token", "forged")] None.

Definition bearer_ada : string := "Bearer " +:+ ref_signToken Reference.ada 1000.

Definition req_bearer_1 : Request :=
  request [] [("deskly_token", ref_signToken Reference.bob 1000)] (Some bearer_ada).

Definition req_bearer_2 : Request :=
  request [] [("deskly_token", "forged")] (Some bearer_ada).

(** The deep link of a token [t]. *)
Definition link_t : string := "deskly://auth/callback?token=t".

(** Logins from the website and from the desktop application. *)
Definition req_login_web : Request := request [("source", QStr "web")] [] None.

Definition req_login_desktop : Request :=
  request [("device_id", QStr "abc123")] [] None.

(** The callback the provider sends the browser to after [req_login_web]
    drew the nonce ["nonce-1"]: the state of the login and its cookie. *)
Definition req_after_login_web : Request :=
  request [("code", QStr "code-ada");
           ("state", QStr (ReferenceLogin.stringify
                             (statePayload req_login_web "nonce-1")))]
          [("oauth_nonce", "nonce-1")] None.

(** A callback whose state is no JSON document, with no cookie at all. *)
Definition req_bad_state : Request :=
  request [("code", QStr "code-bob"); ("state", QStr "not json")] [] None.

(** A callback whose code is an object with a member [toString]
    ([?code[toString]=x]), and no state. *)
Definition req_object_code : Request :=
  request [("code", QObj [("toString", QStr "x")])] [] None.

(** A callback whose code the provider refuses. *)
Definition req_bad_code : Request :=
  request [("code", QStr "stale");
           ("state", QStr (Reference.state_text "nonce-1" "web"))]
          [("oauth_nonce", "nonce-1")] None.

(** Requests that carry Ada's token, issued at 1000, as the session cookie. *)
Definition req_session_ada : Request :=
  request [] [("deskly_token", ref_signToken Reference.ada 1000)] None.

(** A session cookie behind a header that is no Bearer header. *)
Definition req_basic_header : Request :=
  request [] [("deskly_token", ref_signToken Reference.ada 1000)]
          (Some "Basic dXNlcjpwYXNz").

(* ===================================================================== *)
(** * What the handlers assume of the imported functions *)
(* ===================================================================== *)

Section Properties.

Context {platform : Platform}.
Context {sdk : Sdk}.

(** [jsonwebtoken]: a token signed at [t0] for [ttl] seconds verifies, under
    the key it was signed with, to its payload and the two stamps while the
    clock is before [t0 + ttl], and is refused as expired from then on. *)
Hypothesis jwt_verify_sign :
  forall (p : Payload.t) (key : string) (ttl t0 t : Z),
    jwt_verify (jwt_sign p key ttl t0) key t =
    if t <? t0 + ttl then inr (stamp p t0 ttl) else inl TokenExpiredError.

(** [JSON.parse]: the empty text is no JSON document. *)
Hypothesis JSON_parse_empty : JSON_parse EmptyString = None.

(* ===================================================================== *)
(** * Strings: counting and escaping *)
(* ===================================================================== *)

Lemma count_char_app (c : ascii) (s1 s2 : string) :
  count_char c (s1 +:+ s2) = (count_char c s1 + count_char c s2)%nat.
Proof.
  induction s1 as [|a s1 IH]; simpl; [reflexivity|].
  rewrite IH. lia.
Qed.

(** A replaced character is gone when its replacement does not hold it. *)
Lemma replaceAll_removes (c : ascii) (r s : string) :
  count_char c r = 0%nat -> count_char c (replaceAll c r s) = 0%nat.
Proof.
  intros Hr. induction s as [|a s IH]; simpl; [reflexivity|].
  destruct (Ascii.eqb a c) eqn:E.
  - rewrite count_char_app, Hr, IH. reflexivity.
  - simpl. rewrite E, IH. reflexivity.
Qed.

(** A character that is absent stays absent when the replacement does not
    hold it. *)
Lemma replaceAll_keeps_absent (c x : ascii) (r s : string) :
  count_char c r = 0%nat -> count_char c s = 0%nat ->
  count_char c (replaceAll x r s) = 0%nat.
Proof.
  intros Hr. induction s as [|a s IH]; simpl; [reflexivity|].
  intros Hs.
  destruct (Ascii.eqb a c) eqn:Eac; [discriminate|].
  simpl in Hs. specialize (IH Hs).
  destruct (Ascii.eqb a x).
  - rewrite count_char_app, Hr, IH. reflexivity.
  - simpl. rewrite Eac, IH. reflexivity.
Qed.

Lemma esc_no_markup (s : string) :
  Forall (fun c => count_char c (esc s) = 0%nat) markup.
Proof.
  unfold esc. destruct (truthy s); simpl negb; cbv iota.
  2: { repeat constructor. }
  repeat constructor.
  - do 3 (apply replaceAll_keeps_absent; [reflexivity|]).
    apply replaceAll_removes. reflexivity.
  - do 2 (apply replaceAll_keeps_absent; [reflexivity|]).
    apply replaceAll_removes. reflexivity.
  - apply replaceAll_keeps_absent; [reflexivity|].
    apply replaceAll_removes. reflexivity.
  - apply replaceAll_removes. reflexivity.
Qed.

Lemma esc_count (c : ascii) (s : string) :
  In c markup -> count_char c (esc s) = 0%nat.
Proof.
  intros Hc. pose proof (esc_no_markup s) as H.
  rewrite Forall_forall in H. apply H.
  apply list_elem_of_In. exact Hc.
Qed.

Lemma startsWith_first (p s : string) (c : ascii) (p' : string) :
  p = String c p' -> startsWith p s = true -> (0 < count_char c s)%nat.
Proof.
  intros -> H. destruct s as [|a s]; simpl in H; [discriminate|].
  apply andb_prop in H as [H _]. simpl.
  rewrite Ascii.eqb_sym, H. lia.
Qed.

(** A string that holds [p] holds the first character of [p]. *)
Lemma includes_first (c : ascii) (p' s : string) :
  includes (String c p') s = true -> (0 < count_char c s)%nat.
Proof.
  induction s as [|a s IH]; intros H.
  - simpl in H. discriminate.
  - cbn [includes] in H. apply orb_prop in H as [H|H].
    + eapply startsWith_first; eauto.
    + specialize (IH H). simpl. lia.
Qed.

Lemma split_head_app (c : ascii) (l r : string) :
  count_char c l = 0%nat -> split_head c (l +:+ String c r) = l.
Proof.
  induction l as [|a l IH]; simpl.
  - rewrite Ascii.eqb_refl. reflexivity.
  - destruct (Ascii.eqb a c); [discriminate|].
    intros H. rewrite IH; [reflexivity|exact H].
Qed.

(* ===================================================================== *)
(** * [GET /auth/callback] *)
(* ===================================================================== *)


(** Without a state the callback goes on with the default context. *)
Lemma checkState_no_state (req : Request) :
  checkState req None = Accepted defaultContext.
Proof. reflexivity. Qed.

(** C3.  A callback without a [code] query parameter is answered 400 with
    the message "Missing authorization code from WorkOS"; the handler stops
    there, so the provider is not called. *)
Theorem callback_missing_code (req : Request) (now : Z) :
  query req !! "code" = None ->
  auth_callback req now = [Status 400; Send "Missing authorization code from WorkOS"]
  /\ response_status (auth_callback req now) = 400
  /\ provider_calls (auth_callback req now) = 0%nat.
Proof.
  intros Hcode. unfold auth_callback. rewrite Hcode. auto.
Qed.



(** C4.  A callback that succeeds (the client is there, [String(code)]
    does not throw, the provider exchanges the code for [user]) after it got
    through the nonce check with the context source ["web"] sets the
    session cookie (HTTP-only, [SameSite=Lax], 30 days) to the signed token
    and redirects to [/account]: it sends no page, and the only location of
    the response is that constant. *)
Theorem callback_web_redirects (req : Request) (now : Z) (code : QVal)
    (context : Context) (user : User.t) :
  query req !! "code" = Some code ->
  q_truthy (Some code) = true ->
  checkState req (query req !! "state") = Accepted context ->
  source context = JString "web" ->
  exchangeArgument code = inr (q_String code) ->
  authenticateWithCode (WORKOS_CLIENT_ID env) (q_String code) = inr user ->
  auth_callback req now =
    [ClearCookie "oauth_nonce" (Some "/auth/callback");
     AuthenticateWithCode (WORKOS_CLIENT_ID env) (q_String code);
     Cookie "deskly_token" (signToken user now) sessionCookie;
     Redirect "/account"]
  /\ httpOnly sessionCookie = true
  /\ sameSite sessionCookie = "lax"
  /\ maxAge sessionCookie = 30 * 24 * 60 * 60 * 1000
  /\ response_status (auth_callback req now) = 302
  /\ redirects (auth_callback req now) = ["/account"]
  /\ sent_text (auth_callback req now) = [].
Proof.
  intros Hcode Hc Hcheck Hsrc Harg Huser.
  unfold auth_callback. rewrite Hcode, Hc, Hcheck, Harg, Huser, Hsrc. simpl.
  repeat split; reflexivity.
Qed.

(** Every byte an encoded string starts with reads back as itself. *)
Lemma decode_encoded_char (a : ascii) (rest : string) :
  decodeURIComponent
    ((if unreserved a then String a EmptyString else percent a) +:+ rest) =
  match decodeURIComponent rest with
  | Some r => Some (String a r)
  | None => None
  end.
Proof.
  destruct a as [b0 b1 b2 b3 b4 b5 b6 b7].
  destruct b0, b1, b2, b3, b4, b5, b6, b7; reflexivity.
Qed.

Lemma decode_encode (s : string) :
  decodeURIComponent (encodeURIComponent s) = Some s.
Proof.
  induction s as [|a s IH]; [reflexivity|].
  cbn [encodeURIComponent]. rewrite decode_encoded_char, IH. reflexivity.
Qed.



Lemma desktop_html_1_welcome :
  exists before, desktop_html_1 = before +:+ "<h1>Welcome, ".
Proof.
  exists (substring 0 (String.length desktop_html_1 - 13) desktop_html_1).
  vm_compute. reflexivity.
Qed.

Lemma desktop_html_2_welcome :
  exists after, desktop_html_2 = "!</h1>" +:+ after.
Proof.
  exists (substring 6 (String.length desktop_html_2 - 6) desktop_html_2).
  vm_compute. reflexivity.
Qed.

Lemma string_app_assoc (s1 s2 s3 : string) :
  (s1 +:+ s2) +:+ s3 = s1 +:+ (s2 +:+ s3).
Proof.
  induction s1 as [|a s1 IH]; [reflexivity|].
  change (String a ((s1 +:+ s2) +:+ s3) = String a (s1 +:+ (s2 +:+ s3))).
  rewrite IH. reflexivity.
Qed.

(** The escaped form of a string, read back as HTML, is the string. *)
Lemma replaceAll_app (c : ascii) (r s1 s2 : string) :
  replaceAll c r (s1 +:+ s2) = replaceAll c r s1 +:+ replaceAll c r s2.
Proof.
  induction s1 as [|a s1 IH]; [reflexivity|].
  change (replaceAll c r (String a (s1 +:+ s2)) =
          replaceAll c r (String a s1) +:+ replaceAll c r s2).
  cbn [replaceAll]. destruct (Ascii.eqb a c).
  - rewrite IH, string_app_assoc. reflexivity.
  - rewrite IH. reflexivity.
Qed.

(** The five passes of [esc], without its test for the empty string. *)
Lemma esc_passes (s : string) :
  esc s =
  replaceAll "'" "&#39;"
    (replaceAll dquote "&quot;"
      (replaceAll ">" "&gt;"
        (replaceAll "<" "&lt;"
          (replaceAll "&" "&amp;" s)))).
Proof. destruct s; reflexivity. Qed.

Lemma esc_one_char (a : ascii) : esc (String a EmptyString) = escape_char a.
Proof.
  destruct a as [b0 b1 b2 b3 b4 b5 b6 b7].
  destruct b0, b1, b2, b3, b4, b5, b6, b7; reflexivity.
Qed.

Lemma esc_cons (a : ascii) (s : string) :
  esc (String a s) = escape_char a +:+ esc s.
Proof.
  rewrite <- esc_one_char, !esc_passes.
  change (String a s) with (String a EmptyString +:+ s).
  rewrite !replaceAll_app. reflexivity.
Qed.

Lemma unescape_char (a : ascii) (rest : string) :
  unescape_from 0 (escape_char a +:+ rest) = String a (unescape_from 0 rest).
Proof.
  destruct a as [b0 b1 b2 b3 b4 b5 b6 b7].
  destruct b0, b1, b2, b3, b4, b5, b6, b7; reflexivity.
Qed.

Lemma unescape_esc (s : string) : unescape_from 0 (esc s) = s.
Proof.
  induction s as [|a s IH]; [reflexivity|].
  rewrite esc_cons, unescape_char, IH. reflexivity.
Qed.


(* ===================================================================== *)
(** * The token codec *)
(* ===================================================================== *)

(** C2, amended.  Verifying the token issued for [user] at [t0] returns,
    while the clock is before [t0 + 30 days], the claims [signToken] builds
    from [user] — subject, email, resolved display name, picture or null —
    with the stamps [t0] and [t0 + 30 days]; from the expiry on it returns
    null, as it does for every token [jwt.verify] refuses, whatever the
    reason. *)
Theorem verify_issued_token :
  expiresIn = 2592000
  /\ (forall user t0 t, t < t0 + expiresIn ->
        verifyToken (signToken user t0) t =
        Some {| Claims.sub := User.id user;
                Claims.email := User.email user;
                Claims.name := Payload.name (tokenPayload user);
                Claims.picture := or_null (User.profilePictureUrl user);
                Claims.iat := t0;
                Claims.exp := t0 + expiresIn |})
  /\ (forall user t0 t, t0 + expiresIn <= t ->
        verifyToken (signToken user t0) t = None)
  /\ (forall token t err, jwt_verify token JWT_KEY t = inl err ->
        verifyToken token t = None).
Proof.
  split; [reflexivity|]. split; [|split].
  - intros user t0 t Ht. unfold verifyToken, signToken.
    rewrite jwt_verify_sign.
    destruct (Z.ltb_spec t (t0 + expiresIn)); [reflexivity|lia].
  - intros user t0 t Ht. unfold verifyToken, signToken.
    rewrite jwt_verify_sign.
    destruct (Z.ltb_spec t (t0 + expiresIn)); [lia|reflexivity].
  - intros token t err H. unfold verifyToken. rewrite H. reflexivity.
Qed.

(* ===================================================================== *)
(** * [GET /api/me] *)
(* ===================================================================== *)

(** C8.  A request with no [Authorization] header that starts with
    [Bearer ] and no [deskly_token] cookie is answered 401 "Missing token";
    a request whose token fails verification is answered 401 with an error
    body.  Neither answer carries claims. *)
Theorem api_me_unauthorized (req : Request) (now : Z) :
  ((forall h, authorization req = Some h -> startsWith "Bearer " h = false) ->
   cookies req !! "deskly_token" = None ->
   api_me req now = [Status 401; Json (ErrorBody "Missing token")]
   /\ response_status (api_me req now) = 401
   /\ sent_claims (api_me req now) = [])
  /\ (forall token, requestToken req = Some token ->
      verifyToken token now = None ->
      (exists error, api_me req now = [Status 401; Json (ErrorBody error)])
      /\ response_status (api_me req now) = 401
      /\ sent_claims (api_me req now) = []).
Proof.
  split.
  - intros Hhdr Hcookie.
    assert (requestToken req = None) as Hnone.
    { unfold requestToken. rewrite Hcookie.
      destruct (authorization req) as [h|]; [|reflexivity].
      rewrite (Hhdr h eq_refl). reflexivity. }
    unfold api_me. rewrite Hnone. auto.
  - intros token Htok Hver. unfold api_me. rewrite Htok, Hver.
    destruct (truthy token); simpl; eauto.
Qed.

(** C10.  When the [Authorization] header starts with [Bearer ], the answer
    is that of the Bearer token: two requests with that header get the same
    answer, whatever their cookies. *)
Theorem api_me_bearer_ignores_cookie (req1 req2 : Request) (now : Z) (h : string) :
  authorization req1 = Some h ->
  authorization req2 = Some h ->
  startsWith "Bearer " h = true ->
  api_me req1 now = api_me req2 now
  /\ requestToken req1 = Some (slice 7 h).
Proof.
  intros H1 H2 Hb. unfold api_me, requestToken.
  rewrite H1, H2, Hb. auto.
Qed.

(* ===================================================================== *)
(** * The display name and the rendered pages *)
(* ===================================================================== *)

(** C9, amended.  The display name of the issued token is the first name,
    followed by a space and the last name when there is one, when the user
    has a first name, and the part of the email before the first [@]
    otherwise.  The desktop page greets the user by the same first and last
    name when there is a first name, and by the whole email address
    otherwise. *)
Theorem display_name_resolved (user : User.t) (deepLink : string) :
  (forall f l, User.firstName user = Some f -> truthy f = true ->
     User.lastName user = Some l -> truthy l = true ->
     Payload.name (tokenPayload user) = f +:+ " " +:+ l
     /\ displayName user = f +:+ " " +:+ l)
  /\ (forall f, User.firstName user = Some f -> truthy f = true ->
        truthy_opt (User.lastName user) = false ->
        Payload.name (tokenPayload user) = f /\ displayName user = f)
  /\ (truthy_opt (User.firstName user) = false ->
        Payload.name (tokenPayload user) = split_head "@" (User.email user)
        /\ displayName user = User.email user)
  /\ (forall l r, User.email user = l +:+ "@" +:+ r -> count_char "@" l = 0%nat ->
        split_head "@" (User.email user) = l)
  /\ exists before after,
       desktopCallbackPage user deepLink =
       before +:+ "<h1>Welcome, " +:+ esc (displayName user) +:+ "!</h1>" +:+ after.
Proof.
  split; [|split; [|split; [|split]]].
  - intros f l Hf Tf Hl Tl. unfold tokenPayload, displayName, fullName.
    rewrite Hf, Tf, Hl, Tl. auto.
  - intros f Hf Tf Tl. unfold tokenPayload, displayName, fullName.
    rewrite Hf, Tf. simpl.
    assert (forall s, s +:+ EmptyString = s) as Hnil.
    { induction s as [|a s IH]; [reflexivity|].
      change (String a (s +:+ EmptyString) = String a s). rewrite IH. reflexivity. }
    destruct (User.lastName user) as [l|]; simpl in Tl.
    + rewrite Tl, Hnil. auto.
    + rewrite Hnil. auto.
  - intros Tf. unfold tokenPayload, displayName. simpl.
    destruct (User.firstName user) as [f|]; simpl in Tf; [rewrite Tf|]; auto.
  - intros l r He Hl. rewrite He. apply split_head_app. exact Hl.
  - destruct desktop_html_1_welcome as [b1 H1].
    destruct desktop_html_2_welcome as [a2 H2].
    exists b1.
    exists (a2 +:+ esc (User.email user) +:+ desktop_html_3 +:+ esc deepLink
            +:+ desktop_html_4 +:+ esc deepLink +:+ desktop_html_5 +:+ esc deepLink
            +:+ desktop_html_6 +:+ esc deepLink +:+ desktop_html_7).
    unfold desktopCallbackPage. rewrite H1, H2.
    rewrite !string_app_assoc. reflexivity.
Qed.

(** C7.  [esc] leaves none of [<], [>], the double quote and the single
    quote in its result, so the result never holds [<script>]; the desktop
    page and the account page interpolate the name, the email, the picture
    URL, the subject and the deep link through [esc] only, so each page
    holds exactly as many of these characters as its template does,
    whatever the strings are. *)
Theorem pages_escape_interpolations :
  (forall s, Forall (fun c => count_char c (esc s) = 0%nat) markup)
  /\ (forall s, includes "<script>" (esc s) = false)
  /\ (forall user deepLink,
        Forall (fun c => count_char c (desktopCallbackPage user deepLink) =
                         count_char c (desktopCallbackPage blankUser EmptyString))
               markup)
  /\ (forall user,
        Forall (fun c => count_char c (accountPage user) =
                         count_char c (accountPage
                           (blankClaims (truthy_opt (Claims.picture user)))))
               markup).
Proof.
  split; [exact esc_no_markup|]. split; [|split].
  - intros s. destruct (includes "<script>" (esc s)) eqn:E; [|reflexivity].
    apply includes_first in E.
    rewrite (esc_count "<" s) in E by (simpl; auto). lia.
  - intros user deepLink. apply Forall_forall. intros c Hc.
    apply list_elem_of_In in Hc.
    unfold desktopCallbackPage.
    rewrite !count_char_app, !(esc_count c) by exact Hc. reflexivity.
  - intros user. apply Forall_forall. intros c Hc.
    apply list_elem_of_In in Hc.
    unfold accountPage, blankClaims.
    destruct (Claims.picture user) as [p|]; simpl truthy_opt;
      [destruct (truthy p)|]; cbn [Claims.picture Claims.name Claims.email Claims.sub truthy];
      rewrite !count_char_app, !(esc_count c) by exact Hc; reflexivity.
Qed.

End Properties.

(* ===================================================================== *)
(** * The reference implementations meet the assumptions *)
(* ===================================================================== *)

Lemma take_put (s rest : string) :
  Reference.take (Reference.put s +:+ rest) = Some (s, rest).
Proof.
  induction s as [|a s IH]; [reflexivity|].
  change (Reference.take (String "+" (String a (Reference.put s +:+ rest)))
          = Some (String a s, rest)).
  cbn [Reference.take]. rewrite IH. reflexivity.
Qed.

Lemma take_pos_put (p : positive) :
  Reference.take_pos (Reference.put_pos p) = p.
Proof.
  induction p as [p IH|p IH|]; simpl; rewrite ?IH; reflexivity.
Qed.

Lemma take_Z_put (z : Z) : Reference.take_Z (Reference.put_Z z) = Some z.
Proof.
  destruct z; simpl; rewrite ?take_pos_put; reflexivity.
Qed.

Lemma take_opt_put (o : option string) :
  Reference.take_opt (Reference.put_opt o) = Some o.
Proof. destruct o; reflexivity. Qed.

Lemma reference_jwt_verify_sign (p : Payload.t) (key : string) (ttl t0 t : Z) :
  Reference.jwt_verify (Reference.jwt_sign p key ttl t0) key t =
  if t <? t0 + ttl then inr (stamp p t0 ttl) else inl TokenExpiredError.
Proof.
  unfold Reference.jwt_verify, Reference.jwt_sign.
  rewrite !take_put.
  replace (Reference.put (Reference.put_Z (t0 + ttl)))
    with (Reference.put (Reference.put_Z (t0 + ttl)) +:+ EmptyString).
  2: { generalize (Reference.put (Reference.put_Z (t0 + ttl))).
       induction s as [|a s IH]; [reflexivity|].
       change (String a (s +:+ EmptyString) = String a s).
       rewrite IH. reflexivity. }
  rewrite take_put, take_opt_put, !take_Z_put.
  rewrite !String.eqb_refl. simpl negb. cbv iota.
  destruct (Z.leb_spec (t0 + ttl) t), (Z.ltb_spec t (t0 + ttl));
    try lia; destruct p; reflexivity.
Qed.

Lemma reference_JSON_parse_empty : Reference.JSON_parse EmptyString = None.
Proof. reflexivity. Qed.

(* ===================================================================== *)
(** * The theorems on concrete requests *)
(* ===================================================================== *)

(** C3 on a request without a code. *)
Lemma callback_missing_code_witness :
  ref_callback req_no_code 1000 =
    [Status 400; Send "Missing authorization code from WorkOS"]
  /\ response_status (ref_callback req_no_code 1000) = 400
  /\ provider_calls (ref_callback req_no_code 1000) = 0%nat.
Proof.
  apply (callback_missing_code (platform := reference) (sdk := reference_sdk) req_no_code 1000).
  vm_compute. reflexivity.
Defined.




(** C4 on a callback from the website. *)
Lemma callback_web_redirects_witness :
  ref_callback req_web 1000 =
    [ClearCookie "oauth_nonce" (Some "/auth/callback");
     AuthenticateWithCode (Some "client_01") "code-ada";
     Cookie "deskly_token" (ref_signToken Reference.ada 1000)
            (sessionCookie (platform := reference));
     Redirect "/account"]
  /\ redirects (ref_callback req_web 1000) = ["/account"]
  /\ sent_text (ref_callback req_web 1000) = [].
Proof.
  destruct (callback_web_redirects (platform := reference) (sdk := reference_sdk) req_web 1000
              (QStr "code-ada")
              {| source := JString "web"; device_id := JNull |} Reference.ada
              ltac:(vm_compute; reflexivity) eq_refl
              ltac:(vm_compute; reflexivity) eq_refl eq_refl eq_refl)
    as (Htrace & _ & _ & _ & _ & Hredirect & Hsent).
  split; [exact Htrace|]. split; [exact Hredirect|exact Hsent].
Defined.


(** C5 on a callback without a state: the default context is that of the
    desktop application. *)
Example callback_without_state_sends_desktop_page :
  sent_text (ref_callback (request [("code", QStr "code-bob")] [] None) 1000) =
    [desktopCallbackPage Reference.bob
       ("deskly://auth/callback?token="
        +:+ encodeURIComponent (ref_signToken Reference.bob 1000))].
Proof. vm_compute. reflexivity. Qed.

(** C2 as stated fails: the claims that come back are not the input.  Two
    different users, Ada with her names in two fields and Ada with both in
    the first, get tokens that verify to the same claims; and the claims of
    Bob, who has no name, carry the name ["bob"] and two time stamps. *)
Lemma verified_claims_are_not_the_input :
  User.firstName Reference.ada = Some "Ada"
  /\ User.lastName Reference.ada = Some "Lovelace"
  /\ User.firstName ada_one_field = Some "Ada Lovelace"
  /\ User.lastName ada_one_field = None
  /\ ref_verifyToken (ref_signToken Reference.ada 1000) 2000 =
     ref_verifyToken (ref_signToken ada_one_field 1000) 2000
  /\ ref_verifyToken (ref_signToken Reference.ada 1000) 2000 =
     Some (Claims.mk "user_01" "ada@example.com" "Ada Lovelace" None 1000 2593000)
  /\ User.firstName Reference.bob = None
  /\ ref_verifyToken (ref_signToken Reference.bob 1000) 2000 =
     Some (Claims.mk "user_02" "bob@example.com" "bob" None 1000 2593000).
Proof. vm_compute. repeat split; reflexivity. Qed.

(** C2, amended, on Ada's token: valid one second before the thirty days
    are over, null from then on. *)
Lemma verify_issued_token_witness :
  ref_verifyToken (ref_signToken Reference.ada 1000) (1000 + 2592000 - 1) =
    Some (Claims.mk "user_01" "ada@example.com" "Ada Lovelace" None
                    1000 (1000 + expiresIn))
  /\ ref_verifyToken (ref_signToken Reference.ada 1000) (1000 + 2592000) = None
  /\ ref_verifyToken "forged" 2000 = None.
Proof.
  destruct (verify_issued_token (platform := reference) reference_jwt_verify_sign)
    as (_ & Hvalid & Hexpired & Hrefused).
  split; [|split].
  - apply (Hvalid Reference.ada 1000 (1000 + 2592000 - 1)). reflexivity.
  - apply (Hexpired Reference.ada 1000 (1000 + 2592000)). discriminate.
  - apply (Hrefused "forged" 2000 (JsonWebTokenError "jwt malformed")).
    reflexivity.
Defined.

(** C8 on a request with nothing to authenticate it, and on one whose
    cookie holds a token nobody signed. *)
Lemma api_me_unauthorized_witness :
  ref_api_me req_anonymous 2000 = [Status 401; Json (ErrorBody "Missing token")]
  /\ response_status (ref_api_me req_forged 2000) = 401
  /\ sent_claims (ref_api_me req_forged 2000) = [].
Proof.
  split.
  - apply (proj1 (api_me_unauthorized (platform := reference) req_anonymous 2000)).
    + intros h Hh. discriminate Hh.
    + vm_compute. reflexivity.
  - apply (proj2 (api_me_unauthorized (platform := reference) req_forged 2000)
             "forged").
    + vm_compute. reflexivity.
    + reflexivity.
Defined.

(** C10 on two requests with Ada's Bearer token: one carries Bob's session
    cookie, the other a cookie nobody signed, and both are answered with
    Ada's claims. *)
Lemma api_me_bearer_ignores_cookie_witness :
  ref_api_me req_bearer_1 2000 = ref_api_me req_bearer_2 2000
  /\ requestToken req_bearer_1 = Some (slice 7 bearer_ada).
Proof.
  apply (api_me_bearer_ignores_cookie (platform := reference)
           req_bearer_1 req_bearer_2 2000 bearer_ada);
    reflexivity.
Defined.

Example api_me_bearer_answers_ada :
  sent_claims (ref_api_me req_bearer_1 2000) =
    [Claims.mk "user_01" "ada@example.com" "Ada Lovelace" None 1000 2593000]
  /\ cookies req_bearer_1 !! "deskly_token" = Some (ref_signToken Reference.bob 1000).
Proof. vm_compute. split; reflexivity. Qed.

(** C9 as stated fails: Bob has no first name; his token names him ["bob"],
    the part of his email before the [@], and the desktop page greets him
    by his whole email address. *)
Lemma desktop_page_greets_by_email :
  User.firstName Reference.bob = None
  /\ Payload.name (tokenPayload Reference.bob) = "bob"
  /\ displayName Reference.bob = "bob@example.com"
  /\ includes "<h1>Welcome, bob@example.com!</h1>"
       (desktopCallbackPage Reference.bob link_t) = true
  /\ includes "<h1>Welcome, bob!</h1>"
       (desktopCallbackPage Reference.bob link_t) = false.
Proof. vm_compute. repeat split; reflexivity. Qed.

(** C9, amended, on Ada, who has both names, and on Bob, who has none. *)
Lemma display_name_resolved_witness :
  (Payload.name (tokenPayload Reference.ada) = "Ada Lovelace"
   /\ displayName Reference.ada = "Ada Lovelace")
  /\ (Payload.name (tokenPayload Reference.bob) = split_head "@" "bob@example.com"
      /\ displayName Reference.bob = "bob@example.com")
  /\ split_head "@" "bob@example.com" = "bob".
Proof.
  destruct (display_name_resolved Reference.ada link_t) as (Hboth & _).
  destruct (display_name_resolved Reference.bob link_t) as (_ & _ & Hnone & Hlocal & _).
  split; [|split].
  - apply (Hboth "Ada" "Lovelace"); reflexivity.
  - apply Hnone. reflexivity.
  - apply (Hlocal "bob" "example.com"); reflexivity.
Defined.

(** C7 on a name that is a script element: the page holds its escaped form
    and no [<script>] but the template's own, which stands after it. *)
Example desktop_page_escapes_script_name :
  let mallory := User.mk "user_03" "m@example.com"
                         (Some "<script>alert(1)</script>") None None in
  includes "<h1>Welcome, &lt;script&gt;alert(1)&lt;/script&gt;!</h1>"
    (desktopCallbackPage mallory link_t) = true
  /\ includes "<script>alert" (desktopCallbackPage mallory link_t) = false
  /\ count_char "<" (desktopCallbackPage mallory link_t) =
     count_char "<" (desktopCallbackPage blankUser EmptyString).
Proof. vm_compute. repeat split; reflexivity. Qed.

(* ===================================================================== *)
(** * Further properties: [esc] and the token payload *)
(* ===================================================================== *)

(** X1.  The five replacements of [esc], made one after the other with [&]
    first, come to one pass that writes each character's entity: what an
    earlier replacement wrote is never escaped again by a later one. *)
Theorem esc_per_character (s : string) :
  esc s = flat_map_chars escape_char s.
Proof.
  induction s as [|a s IH]; [reflexivity|].
  rewrite esc_cons, IH. reflexivity.
Qed.

(** X2.  Escaping a concatenation is concatenating the escaped parts. *)
Theorem esc_app (s1 s2 : string) : esc (s1 +:+ s2) = esc s1 +:+ esc s2.
Proof.
  induction s1 as [|a s1 IH]; [reflexivity|].
  change (esc (String a (s1 +:+ s2)) = esc (String a s1) +:+ esc s2).
  rewrite !esc_cons, IH, string_app_assoc. reflexivity.
Qed.

(** X3.  [esc] loses nothing: two strings with the same escaped form are
    the same string. *)
Theorem esc_injective (s1 s2 : string) : esc s1 = esc s2 -> s1 = s2.
Proof.
  intros H. rewrite <- (unescape_esc s1), <- (unescape_esc s2), H. reflexivity.
Qed.

Lemma esc_injective_witness : "Ada <3" = "Ada <3".
Proof. apply (esc_injective "Ada <3" "Ada <3"). reflexivity. Defined.

(** X4.  A string with none of [&], [<], [>], the double quote and the
    single quote is its own escaped form. *)
Theorem esc_plain (s : string) :
  count_char "&" s = 0%nat ->
  Forall (fun c => count_char c s = 0%nat) markup ->
  esc s = s.
Proof.
  induction s as [|a s IH]; [reflexivity|].
  intros Hamp Hmark.
  assert (escape_char a = String a EmptyString) as Ha.
  { unfold escape_char.
    simpl in Hamp. destruct (Ascii.eqb a "&"); [discriminate|].
    inversion Hmark as [|? ? Hlt H1]; subst.
    inversion H1 as [|? ? Hgt H2]; subst.
    inversion H2 as [|? ? Hdq H3]; subst.
    inversion H3 as [|? ? Hsq _]; subst.
    simpl in Hlt, Hgt, Hdq, Hsq.
    destruct (Ascii.eqb a "<"); [discriminate|].
    destruct (Ascii.eqb a ">"); [discriminate|].
    destruct (Ascii.eqb a dquote); [discriminate|].
    destruct (Ascii.eqb a "'"); [discriminate|].
    reflexivity. }
  rewrite esc_cons, Ha, IH.
  - reflexivity.
  - simpl in Hamp. destruct (Ascii.eqb a "&"); [discriminate|exact Hamp].
  - eapply Forall_impl; [exact Hmark|].
    intros c Hc. simpl in Hc. destruct (Ascii.eqb a c); [discriminate|exact Hc].
Qed.

Lemma esc_plain_witness : esc "ada@example.com" = "ada@example.com".
Proof.
  apply esc_plain.
  - reflexivity.
  - repeat constructor.
Defined.

(* ===================================================================== *)
(** * Further properties: [GET /auth/callback] *)
(* ===================================================================== *)

Section CallbackProperties.

Context {platform : Platform}.
Context {sdk : Sdk}.


(** What reaches the provider is [String(code)]. *)
Lemma exchangeArgument_inr (code : QVal) (c : string) :
  exchangeArgument code = inr c ->
  c = q_String code
  /\ q_throws code = false
  /\ exists client, fst (getWorkOS Client newWorkOS workos env) = inr client.
Proof.
  unfold exchangeArgument.
  destruct (fst (getWorkOS Client newWorkOS workos env)) as [err|client];
    [discriminate|].
  destruct (q_throws code); [discriminate|].
  intros H. inversion H. eauto.
Qed.

(** The six ways a callback ends, each with its trace. *)
Lemma callback_cases (req : Request) (now : Z) :
  (q_truthy (query req !! "code") = false
   /\ auth_callback req now =
      [Status 400; Send "Missing authorization code from WorkOS"])
  \/ (q_truthy (query req !! "code") = true
      /\ checkState req (query req !! "state") = Rejected
      /\ auth_callback req now =
         [Status 403;
          Send "OAuth state mismatch — possible CSRF. Please try signing in again."])
  \/ exists code context,
       query req !! "code" = Some code
       /\ q_truthy (Some code) = true
       /\ checkState req (query req !! "state") = Accepted context
       /\ ((exists err,
              exchangeArgument code = inl err
              /\ auth_callback req now =
                 [ClearCookie "oauth_nonce" (Some "/auth/callback");
                  ConsoleError err; ConsoleError err; Status 500;
                  Send (error_html_1 +:+ safeMessage err +:+ error_html_2)])
           \/ (exists err,
              exchangeArgument code = inr (q_String code)
              /\ authenticateWithCode (WORKOS_CLIENT_ID env) (q_String code) = inl err
              /\ auth_callback req now =
                 [ClearCookie "oauth_nonce" (Some "/auth/callback");
                  AuthenticateWithCode (WORKOS_CLIENT_ID env) (q_String code);
                  ConsoleError err; ConsoleError err; Status 500;
                  Send (error_html_1 +:+ safeMessage err +:+ error_html_2)])
           \/ (exists user,
                 exchangeArgument code = inr (q_String code)
                 /\ authenticateWithCode (WORKOS_CLIENT_ID env) (q_String code) = inr user
                 /\ strict_eq_string (Some (source context)) "web" = true
                 /\ auth_callback req now =
                    [ClearCookie "oauth_nonce" (Some "/auth/callback");
                     AuthenticateWithCode (WORKOS_CLIENT_ID env) (q_String code);
                     Cookie "deskly_token" (signToken user now) sessionCookie;
                     Redirect "/account"])
           \/ (exists user,
                 exchangeArgument code = inr (q_String code)
                 /\ authenticateWithCode (WORKOS_CLIENT_ID env) (q_String code) = inr user
                 /\ strict_eq_string (Some (source context)) "web" = false
                 /\ auth_callback req now =
                    [ClearCookie "oauth_nonce" (Some "/auth/callback");
                     AuthenticateWithCode (WORKOS_CLIENT_ID env) (q_String code);
                     Cookie "deskly_token" (signToken user now) sessionCookie;
                     Send (desktopCallbackPage user (deepLinkOf (signToken user now)))])).
Proof.
  unfold auth_callback.
  destruct (query req !! "code") as [code|] eqn:Hcode; [|left; auto].
  destruct (q_truthy (Some code)) eqn:Tc; simpl negb; cbv iota; [|left; auto].
  destruct (checkState req (query req !! "state")) as [|context] eqn:Hcheck;
    [right; left; auto|].
  right; right. exists code, context. repeat split; auto.
  destruct (exchangeArgument code) as [err|c] eqn:Harg.
  { left. exists err. auto. }
  destruct (exchangeArgument_inr _ _ Harg) as (-> & _).
  destruct (authenticateWithCode (WORKOS_CLIENT_ID env) (q_String code))
    as [err|user] eqn:Hx.
  - right; left. exists err. auto.
  - destruct (strict_eq_string (Some (source context)) "web") eqn:Hweb.
    + right; right; left. exists user. auto.
    + right; right; right. exists user. auto.
Qed.


(** X6.  Whatever the request, the callback calls the provider at most
    once and answers 400, 403, 500, 302 or 200.  On 400 and 403 it has not
    called the provider; on 500 it has not exactly when building the
    client or [String(code)] threw, after the nonce check; on 302 and 200
    it has called it once.  It sets the session cookie exactly on 302 and
    200, after one provider call and with the nonce cookie cleared. *)
Theorem callback_invariants (req : Request) (now : Z) :
  let trace := auth_callback req now in
  (provider_calls trace <= 1)%nat
  /\ In (response_status trace) [400; 403; 500; 302; 200]
  /\ (response_status trace = 400 \/ response_status trace = 403 ->
      provider_calls trace = 0%nat)
  /\ (response_status trace = 302 \/ response_status trace = 200 ->
      provider_calls trace = 1%nat)
  /\ (response_status trace = 500 ->
      (provider_calls trace = 0%nat <->
       exists code context err,
         query req !! "code" = Some code
         /\ checkState req (query req !! "state") = Accepted context
         /\ exchangeArgument code = inl err))
  /\ (existsb (is_cookie_set "deskly_token") trace = true <->
      response_status trace = 302 \/ response_status trace = 200)
  /\ (existsb (is_cookie_set "deskly_token") trace = true ->
      provider_calls trace = 1%nat
      /\ existsb (is_cookie_cleared "oauth_nonce") trace = true).
Proof.
  intros trace. subst trace.
  destruct (callback_cases req now)
    as [(_ & ->)|[(_ & _ & ->)|(code & context & Hcode & _ & Ha & Hx)]].
  - cbn; repeat split; auto 6; try lia; try discriminate;
      try (intros [H|H]; discriminate).
  - cbn; repeat split; auto 6; try lia; try discriminate;
      try (intros [H|H]; discriminate).
  - destruct Hx as [(err & Harg & ->)|[(err & Harg & _ & ->)
                   |[(user & _ & _ & _ & ->)|(user & _ & _ & _ & ->)]]];
      cbn; repeat split; auto 6; try lia; try discriminate;
      try (intros [H|H]; discriminate).
    + intros _. exists code, context, err. auto.
    + intros (code' & context' & err' & Hcode' & _ & Harg').
      rewrite Hcode in Hcode'. inversion Hcode'; subst. congruence.
Qed.

(** X7.  When the provider, called with [String(code)], refuses the code
    of a callback that got through the nonce check, the answer is 500
    after exactly one provider call: the nonce cookie is cleared all the
    same, no session cookie is set, and the body is the page of the error
    handler. *)
Theorem callback_exchange_failed (req : Request) (now : Z) (code : QVal)
    (context : Context) (err : Error) :
  query req !! "code" = Some code ->
  q_truthy (Some code) = true ->
  checkState req (query req !! "state") = Accepted context ->
  exchangeArgument code = inr (q_String code) ->
  authenticateWithCode (WORKOS_CLIENT_ID env) (q_String code) = inl err ->
  response_status (auth_callback req now) = 500
  /\ provider_calls (auth_callback req now) = 1%nat
  /\ existsb (is_cookie_cleared "oauth_nonce") (auth_callback req now) = true
  /\ existsb (is_cookie_set "deskly_token") (auth_callback req now) = false
  /\ sent_text (auth_callback req now) = sent_text (errorHandler err)
  /\ redirects (auth_callback req now) = [].
Proof.
  intros Hcode Hc Hcheck Harg Hx.
  unfold auth_callback. rewrite Hcode, Hc, Hcheck, Harg, Hx. cbn. auto 6.
Qed.

(** X8.  A callback whose state is missing, empty or not a JSON document
    skips the nonce check: with a code the provider accepts (the client
    being there and [String(code)] not throwing) it sets the session cookie
    and sends the desktop page, whatever its cookies are. *)
Theorem callback_unparsed_state (req : Request) (now : Z) (code : QVal)
    (user : User.t) :
  query req !! "code" = Some code ->
  q_truthy (Some code) = true ->
  (forall v, query req !! "state" = Some v -> q_truthy (Some v) = true ->
             JSON_parse (q_String v) = None) ->
  exchangeArgument code = inr (q_String code) ->
  authenticateWithCode (WORKOS_CLIENT_ID env) (q_String code) = inr user ->
  checkState req (query req !! "state") = Accepted defaultContext
  /\ auth_callback req now =
     [ClearCookie "oauth_nonce" (Some "/auth/callback");
      AuthenticateWithCode (WORKOS_CLIENT_ID env) (q_String code);
      Cookie "deskly_token" (signToken user now) sessionCookie;
      Send (desktopCallbackPage user (deepLinkOf (signToken user now)))].
Proof.
  intros Hcode Hc Hstate Harg Hx.
  assert (checkState req (query req !! "state") = Accepted defaultContext) as Hcheck.
  { unfold checkState.
    destruct (query req !! "state") as [v|]; [|reflexivity].
    destruct (q_truthy (Some v)) eqn:Tv; simpl negb; cbv iota; [|reflexivity].
    rewrite (Hstate v eq_refl Tv). reflexivity. }
  split; [exact Hcheck|].
  unfold auth_callback. rewrite Hcode, Hc, Hcheck, Harg, Hx. reflexivity.
Qed.

Lemma js_or_web (v : JSValue) :
  strict_eq_string (Some (js_or v (JString "desktop"))) "web" = true ->
  v = Some (JString "web").
Proof.
  destruct v as [j|]; [|discriminate].
  unfold js_or. destruct (js_truthy (Some j)); [|discriminate].
  destruct j; try discriminate.
  simpl. intros H. apply String.eqb_eq in H. congruence.
Qed.

Lemma checkState_web (req : Request) (state : option QVal) (context : Context) :
  checkState req state = Accepted context ->
  strict_eq_string (Some (source context)) "web" = true ->
  exists v parsed saved,
    state = Some v
    /\ JSON_parse (q_String v) = Some parsed
    /\ cookies req !! "oauth_nonce" = Some saved
    /\ truthy saved = true
    /\ getProp parsed "n" = Some (Some (JString saved))
    /\ getProp parsed "source" = Some (Some (JString "web")).
Proof.
  unfold checkState.
  assert (forall c, Accepted defaultContext = Accepted c ->
            strict_eq_string (Some (source c)) "web" = true -> False) as Hdef.
  { intros c Hc. inversion Hc; subst. discriminate. }
  destruct state as [v|]; [|intros H1 H2; destruct (Hdef _ H1 H2)].
  destruct (q_truthy (Some v)); simpl negb; cbv iota;
    [|intros H1 H2; destruct (Hdef _ H1 H2)].
  destruct (JSON_parse (q_String v)) as [parsed|] eqn:Hp;
    [|intros H1 H2; destruct (Hdef _ H1 H2)].
  destruct (cookies req !! "oauth_nonce") as [saved|] eqn:Hc; [|discriminate].
  destruct (truthy saved) eqn:Ts; simpl negb; cbv iota; [|discriminate].
  destruct (getProp parsed "n") as [n|] eqn:Hn; simpl;
    [|intros H1 H2; destruct (Hdef _ H1 H2)].
  destruct (strict_eq_string n saved) eqn:Hs; simpl; [|discriminate].
  destruct (getProp parsed "source") as [s|] eqn:Hsrc; simpl;
    [|intros H1 H2; destruct (Hdef _ H1 H2)].
  destruct (getProp parsed "device_id") as [d|] eqn:Hd; simpl;
    [|intros H1 H2; destruct (Hdef _ H1 H2)].
  intros Hacc Hweb. inversion Hacc; subst context. simpl in Hweb.
  apply js_or_web in Hweb. subst s.
  exists v, parsed, saved. repeat split; auto.
  destruct n as [[| | |s| |]|]; simpl in Hs; try discriminate.
  apply String.eqb_eq in Hs. rewrite <- Hs. exact Hn.
Qed.

(** X9.  The callback redirects to [/account] only for a state that went
    through the nonce check: the state parses, the nonce cookie is not
    empty, the [n] of the state is the string in the cookie, and the
    [source] of the state is the string ["web"]. *)
Theorem callback_web_needs_nonce (req : Request) (now : Z) :
  In (Redirect "/account") (auth_callback req now) ->
  exists state parsed saved,
    query req !! "state" = Some state
    /\ JSON_parse (q_String state) = Some parsed
    /\ cookies req !! "oauth_nonce" = Some saved
    /\ truthy saved = true
    /\ getProp parsed "n" = Some (Some (JString saved))
    /\ getProp parsed "source" = Some (Some (JString "web")).
Proof.
  destruct (callback_cases req now)
    as [(_ & ->)|[(_ & _ & ->)|(code & context & _ & _ & Ha & Hx)]].
  - simpl. intros [H|[H|[]]]; discriminate.
  - simpl. intros [H|[H|[]]]; discriminate.
  - destruct Hx as [(err & _ & ->)|[(err & _ & _ & ->)
                   |[(user & _ & _ & Hweb & ->)|(user & _ & _ & _ & ->)]]].
    + simpl. intros H. repeat (destruct H as [H|H]; [discriminate|]). destruct H.
    + simpl. intros H. repeat (destruct H as [H|H]; [discriminate|]). destruct H.
    + intros _. exact (checkState_web _ _ _ Ha Hweb).
    + simpl. intros H. repeat (destruct H as [H|H]; [discriminate|]). destruct H.
Qed.

End CallbackProperties.

(* ===================================================================== *)
(** * Further properties: sessions, [/api/me], [/account], errors *)
(* ===================================================================== *)

Section SessionProperties.

Context {platform : Platform}.
Context {sdk : Sdk}.

Hypothesis jwt_verify_sign :
  forall (p : Payload.t) (key : string) (ttl t0 t : Z),
    jwt_verify (jwt_sign p key ttl t0) key t =
    if t <? t0 + ttl then inr (stamp p t0 ttl) else inl TokenExpiredError.

Lemma carries_requestToken (r : Request) (token : string) :
  truthy token = true -> carries r token -> requestToken r = Some token.
Proof.
  intros Ht [Hb|(Hc & Hh)]; unfold requestToken.
  - rewrite Hb. reflexivity.
  - rewrite Hc, Ht.
    destruct (authorization r) as [h|]; [|reflexivity].
    rewrite (Hh h eq_refl). reflexivity.
Qed.

(** X10.  [/api/me] answers with claims [u] exactly when the token it
    settles on is not empty and verifies to [u]; it answers 200 then and
    401 with no claims otherwise; it sets no cookie, sends no page, never
    redirects and never calls the provider. *)
Theorem api_me_answers (req : Request) (now : Z) :
  (forall u, In u (sent_claims (api_me req now)) <->
             exists token, requestToken req = Some token
                           /\ truthy token = true
                           /\ verifyToken token now = Some u)
  /\ (response_status (api_me req now) = 200
      \/ response_status (api_me req now) = 401)
  /\ (response_status (api_me req now) = 401 <-> sent_claims (api_me req now) = [])
  /\ provider_calls (api_me req now) = 0%nat
  /\ redirects (api_me req now) = []
  /\ sent_text (api_me req now) = []
  /\ (forall name, existsb (is_cookie_set name) (api_me req now) = false).
Proof.
  unfold api_me.
  destruct (requestToken req) as [token|] eqn:Hr.
  2: { cbn. repeat split; auto; try discriminate; try tauto.
       intros (token & H & _). discriminate. }
  destruct (truthy token) eqn:Ht; simpl negb; cbv iota.
  2: { cbn. repeat split; auto; try discriminate; try tauto.
       intros (token' & H & Ht' & _). congruence. }
  destruct (verifyToken token now) as [user|] eqn:Hv.
  - cbn. repeat split; auto; try discriminate.
    + intros [<-|[]]. exists token. auto.
    + intros (token' & H & _ & Hv'). left. congruence.
  - cbn. repeat split; auto; try discriminate; try tauto.
    intros (token' & H & _ & Hv'). congruence.
Qed.

(** X11.  An [Authorization] header that does not start with [Bearer ],
    capital B and one space, counts for nothing: the answer is that of the
    request without the header, so the session cookie decides. *)
Theorem api_me_other_header (req : Request) (now : Z) (h : string) :
  authorization req = Some h ->
  startsWith "Bearer " h = false ->
  api_me req now = api_me (without_authorization req) now.
Proof.
  intros Hh Hb. unfold api_me, requestToken, without_authorization.
  cbn [authorization cookies]. rewrite Hh, Hb. reflexivity.
Qed.

(** The session cookie of a callback is the token signed for the user the
    provider returned for the code. *)
Lemma callback_session_cookie (req : Request) (now : Z) (token : string)
    (options : CookieOptions) :
  In (Cookie "deskly_token" token options) (auth_callback req now) ->
  exists code user,
    query req !! "code" = Some code
    /\ authenticateWithCode (WORKOS_CLIENT_ID env) (q_String code) = inr user
    /\ token = signToken user now.
Proof.
  destruct (callback_cases req now)
    as [(_ & ->)|[(_ & _ & ->)|(code & context & Hcode & _ & _ & Hx)]].
  - simpl. intros [H|[H|[]]]; discriminate.
  - simpl. intros [H|[H|[]]]; discriminate.
  - destruct Hx as [(err & _ & ->)|[(err & _ & _ & ->)
                   |[(user & _ & Hu & _ & ->)|(user & _ & Hu & _ & ->)]]];
      simpl; intros H; decompose [or] H; try discriminate; try contradiction;
      match goal with
      | E : Cookie _ _ _ = Cookie _ _ _ |- _ => inversion E; subst
      end;
      exists code, user; auto.
Qed.

(** X13.  Every session cookie the callback sets is honoured by [/api/me]
    for thirty days: a later request that carries its value, as the cookie
    or as a Bearer token, is answered with the claims of the user the
    provider returned for the callback's code while the clock is before
    the expiry, and with 401 from the expiry on. *)
Theorem session_cookie_honoured (req : Request) (now : Z) (token : string)
    (options : CookieOptions) (r : Request) :
  In (Cookie "deskly_token" token options) (auth_callback req now) ->
  truthy token = true ->
  carries r token ->
  exists code user,
    query req !! "code" = Some code
    /\ authenticateWithCode (WORKOS_CLIENT_ID env) (q_String code) = inr user
    /\ (forall t, t < now + expiresIn ->
          api_me r t = [Json (UserBody (stamp (tokenPayload user) now expiresIn))])
    /\ (forall t, now + expiresIn <= t ->
          api_me r t = [Status 401; Json (ErrorBody "Invalid or expired token")]).
Proof.
  intros Hin Ht Hr.
  destruct (callback_session_cookie _ _ _ _ Hin) as (code & user & Hcode & Hu & ->).
  exists code, user. split; [exact Hcode|]. split; [exact Hu|].
  pose proof (carries_requestToken _ _ Ht Hr) as Hreq.
  split; intros t Hlt; unfold api_me; rewrite Hreq, Ht; simpl negb; cbv iota;
    unfold verifyToken, signToken; rewrite jwt_verify_sign;
    destruct (Z.ltb_spec t (now + expiresIn)); try lia; reflexivity.
Qed.

(** X14.  With the provider configured, [/account] renders the account
    page of the same claims for a request that carries that cookie, while
    the clock is before the expiry, and redirects to the web login from
    the expiry on. *)
Theorem session_cookie_opens_account (req : Request) (now : Z) (token : string)
    (options : CookieOptions) (r : Request) :
  In (Cookie "deskly_token" token options) (auth_callback req now) ->
  truthy token = true ->
  truthy_opt (WORKOS_API_KEY env) = true ->
  truthy_opt (WORKOS_CLIENT_ID env) = true ->
  cookies r !! "deskly_token" = Some token ->
  exists code user,
    query req !! "code" = Some code
    /\ authenticateWithCode (WORKOS_CLIENT_ID env) (q_String code) = inr user
    /\ (forall t, t < now + expiresIn ->
          account r t = [Send (accountPage (stamp (tokenPayload user) now expiresIn))])
    /\ (forall t, now + expiresIn <= t ->
          account r t = [Redirect "/auth/login?source=web"]).
Proof.
  intros Hin Ht Hk Hc Hr.
  destruct (callback_session_cookie _ _ _ _ Hin) as (code & user & Hcode & Hu & ->).
  exists code, user. split; [exact Hcode|]. split; [exact Hu|].
  split; intros t Hlt; unfold account; rewrite Hk, Hc, Hr, Ht; simpl;
    unfold verifyToken, signToken; rewrite jwt_verify_sign;
    destruct (Z.ltb_spec t (now + expiresIn)); try lia; reflexivity.
Qed.

(** X15.  [/account] sends the static page, whatever the cookies, when the
    provider is not configured.  When it is, the only page it sends is the
    account page of the claims its session cookie verifies to, and without
    such a cookie it redirects to the web login.  It never sets a cookie
    and never calls the provider. *)
Theorem account_answers (req : Request) (now : Z) :
  (truthy_opt (WORKOS_API_KEY env) && truthy_opt (WORKOS_CLIENT_ID env) = false ->
   account req now = [Send unconfigured_html])
  /\ (truthy_opt (WORKOS_API_KEY env) && truthy_opt (WORKOS_CLIENT_ID env) = true ->
      (forall body, In body (sent_text (account req now)) <->
         exists token u, cookies req !! "deskly_token" = Some token
                         /\ truthy token = true
                         /\ verifyToken token now = Some u
                         /\ body = accountPage u)
      /\ (sent_text (account req now) = [] ->
          account req now = [Redirect "/auth/login?source=web"]))
  /\ provider_calls (account req now) = 0%nat
  /\ (forall name, existsb (is_cookie_set name) (account req now) = false).
Proof.
  unfold account.
  destruct (truthy_opt (WORKOS_API_KEY env)) eqn:Hk;
    destruct (truthy_opt (WORKOS_CLIENT_ID env)) eqn:Hc; simpl;
    try (repeat split; auto; discriminate).
  split; [discriminate|].
  destruct (cookies req !! "deskly_token") as [token|] eqn:Hr.
  2: { cbn. repeat split; auto; try tauto.
       intros (token' & u' & E & _). discriminate. }
  destruct (truthy token) eqn:Ht.
  2: { cbn. repeat split; auto; try tauto.
       intros (token' & u' & E & Ht' & _). congruence. }
  destruct (verifyToken token now) as [user|] eqn:Hv.
  - cbn. repeat split; auto; try discriminate.
    + intros [<-|[]]. exists token, user. auto.
    + intros (token' & u' & E & _ & Hv' & ->). left. congruence.
  - cbn. repeat split; auto; try tauto.
    intros (token' & u' & E & _ & Hv' & _). congruence.
Qed.

(** X16.  The error handler answers 500 with its template around one
    message.  The message holds no [<], [>] or quote; in production it is
    the same sentence for every error, so nothing of the error reaches the
    client. *)
Theorem errorHandler_message (err : Error) :
  response_status (errorHandler err) = 500
  /\ sent_text (errorHandler err) =
     [error_html_1 +:+ safeMessage err +:+ error_html_2]
  /\ Forall (fun c => count_char c (safeMessage err) = 0%nat) markup
  /\ (isProduction = true ->
      safeMessage err = "An unexpected error occurred. Please try again later.").
Proof.
  repeat split.
  - unfold safeMessage. destruct isProduction.
    + repeat constructor.
    + apply esc_no_markup.
  - intros Hp. unfold safeMessage. rewrite Hp. reflexivity.
Qed.

End SessionProperties.

(* ===================================================================== *)
(** * Further properties: start-up, login, logout, the deep link *)
(* ===================================================================== *)

Section RelayProperties.

Context {platform : Platform} {imports : LoginImports}.

Hypothesis JSON_parse_empty : JSON_parse EmptyString = None.

(** X17.  The server starts unless it is in production without a signing
    secret.  A started server signs with the configured secret whenever
    there is one, always so in production, and with the development
    default exactly when no secret is set; its key is never empty. *)
Theorem startup_key :
  (startup = None <->
   isProduction = true /\ truthy_opt (JWT_SECRET env) = false)
  /\ (forall key, startup = Some key ->
        key = JWT_KEY /\ truthy key = true
        /\ (isProduction = true -> JWT_SECRET env = Some key)
        /\ (truthy_opt (JWT_SECRET env) = true -> JWT_SECRET env = Some key)
        /\ (truthy_opt (JWT_SECRET env) = false -> key = "dev-secret-change-me")).
Proof.
  unfold startup, JWT_KEY, or_default.
  destruct (JWT_SECRET env) as [secret|]; simpl truthy_opt;
    [destruct (truthy secret) eqn:Ts|]; destruct isProduction; simpl;
    (split;
     [intuition discriminate
     |intros key Hk; try discriminate; inversion Hk; subst;
      intuition (try discriminate; try congruence)]).
Qed.

Lemma q_or_truthy (v : option QVal) (d : JSON) :
  js_truthy (Some d) = true -> js_truthy (Some (q_or v d)) = true.
Proof.
  intros Hd. unfold q_or. destruct v as [q|]; [|exact Hd].
  destruct (q_truthy (Some q)) eqn:Tq; [|exact Hd].
  destruct q; simpl in *; auto.
Qed.

Lemma js_or_q_or_null (v : option QVal) :
  js_or (Some (q_or v JNull)) JNull = q_or v JNull.
Proof.
  unfold q_or. destruct v as [q|]; [|reflexivity].
  destruct (q_truthy (Some q)) eqn:Tq; [|reflexivity].
  destruct q; simpl in *; try reflexivity. rewrite Tq. reflexivity.
Qed.

Lemma js_or_q_or_desktop (v : option QVal) :
  js_or (Some (q_or v (JString "desktop"))) (JString "desktop") =
  q_or v (JString "desktop").
Proof.
  unfold js_or. rewrite q_or_truthy by reflexivity. reflexivity.
Qed.

(** X18.  Login and callback fit together.  The login sets the nonce
    cookie (HTTP-only, ten minutes, path [/auth/callback]) and sends the
    browser to the provider with a state; a callback that brings that
    state and that cookie back gets through the nonce check, with the
    source and device of the login as its context (["desktop"] when the
    login named no source), provided [JSON.parse] reads back what
    [JSON.stringify] wrote. *)
Theorem login_then_callback (req : Request) (nonce url : string) (cb : Request) :
  truthy nonce = true ->
  JSON_parse (JSON_stringify (statePayload req nonce)) = Some (statePayload req nonce) ->
  getAuthorizationUrl (WORKOS_CLIENT_ID env) (baseUrl +:+ "/auth/callback")
                      "authkit" (JSON_stringify (statePayload req nonce)) = inr url ->
  query cb !! "state" = Some (QStr (JSON_stringify (statePayload req nonce))) ->
  cookies cb !! "oauth_nonce" = Some nonce ->
  auth_login req nonce = [Cookie "oauth_nonce" nonce nonceCookie; Redirect url]
  /\ httpOnly nonceCookie = true
  /\ maxAge nonceCookie = 600000
  /\ path nonceCookie = Some "/auth/callback"
  /\ checkState cb (query cb !! "state") =
     Accepted {| source := q_or (query req !! "source") (JString "desktop");
                 device_id := q_or (query req !! "device_id") JNull |}.
Proof.
  intros Hn Hparse Hurl Hstate Hcookie.
  split; [|repeat split].
  - unfold auth_login. rewrite Hurl. reflexivity.
  - rewrite Hstate. unfold checkState.
    assert (q_truthy (Some (QStr (JSON_stringify (statePayload req nonce)))) = true)
      as Ht.
    { simpl. destruct (JSON_stringify (statePayload req nonce)); [|reflexivity].
      simpl in Hparse. rewrite JSON_parse_empty in Hparse. discriminate. }
    rewrite Ht. simpl negb. cbv iota.
    change (q_String (QStr (JSON_stringify (statePayload req nonce))))
      with (JSON_stringify (statePayload req nonce)).
    rewrite Hparse, Hcookie, Hn. simpl negb. cbv iota.
    assert (getProp (statePayload req nonce) "n" = Some (Some (JString nonce)))
      as -> by reflexivity.
    assert (getProp (statePayload req nonce) "source" =
            Some (Some (q_or (query req !! "source") (JString "desktop"))))
      as -> by reflexivity.
    assert (getProp (statePayload req nonce) "device_id" =
            Some (Some (q_or (query req !! "device_id") JNull)))
      as -> by reflexivity.
    cbn [mbind option_bind strict_eq_string]. rewrite String.eqb_refl.
    cbn [negb]. rewrite js_or_q_or_null, js_or_q_or_desktop. reflexivity.
Qed.

(** X19.  The session cookie comes from the callback alone: the login, the
    logout, [/account] and [/api/me] never set it and never call the code
    exchange, whatever the request. *)
Theorem only_callback_signs_in (req : Request) (nonce : string) (now : Z) :
  Forall (fun trace => existsb (is_cookie_set "deskly_token") trace = false
                       /\ provider_calls trace = 0%nat)
         [auth_login req nonce; auth_logout req; account req now; api_me req now].
Proof.
  repeat constructor.
  - unfold auth_login. destruct getAuthorizationUrl; reflexivity.
  - unfold auth_login. destruct getAuthorizationUrl; reflexivity.
  - unfold account.
    destruct (negb _ || negb _); [reflexivity|].
    destruct (cookies req !! "deskly_token") as [t|]; [|reflexivity].
    destruct (truthy t); [|reflexivity].
    destruct (verifyToken t now); reflexivity.
  - unfold account.
    destruct (negb _ || negb _); [reflexivity|].
    destruct (cookies req !! "deskly_token") as [t|]; [|reflexivity].
    destruct (truthy t); [|reflexivity].
    destruct (verifyToken t now); reflexivity.
  - unfold api_me. destruct (requestToken req) as [t|]; [|reflexivity].
    destruct (truthy t); [|reflexivity].
    destruct (verifyToken t now); reflexivity.
  - unfold api_me. destruct (requestToken req) as [t|]; [|reflexivity].
    destruct (truthy t); [|reflexivity].
    destruct (verifyToken t now); reflexivity.
Qed.

Lemma slice_app (p s : string) : slice (String.length p) (p +:+ s) = s.
Proof. induction p as [|a p IH]; [reflexivity|exact IH]. Qed.

Lemma encoded_char_no_delimiter (a : ascii) :
  Forall (fun c => count_char c
                     (if unreserved a then String a EmptyString else percent a) = 0%nat)
         delimiters.
Proof.
  destruct a as [b0 b1 b2 b3 b4 b5 b6 b7].
  destruct b0, b1, b2, b3, b4, b5, b6, b7; repeat constructor.
Qed.

Lemma encodeURIComponent_no_delimiter (s : string) :
  Forall (fun c => count_char c (encodeURIComponent s) = 0%nat) delimiters.
Proof.
  induction s as [|a s IH]; [repeat constructor|].
  cbn [encodeURIComponent].
  pose proof (encoded_char_no_delimiter a) as Ha.
  rewrite Forall_forall in *. intros c Hc.
  rewrite count_char_app, (Ha c Hc), (IH c Hc). reflexivity.
Qed.

(** X20.  The deep link gives its token back: what follows
    [<scheme>://auth/callback?token=] holds none of [&], [#], [?], [=],
    [/], [+] and the space, so it is one whole query parameter, and
    decoding it yields the token. *)
Theorem deep_link_token (token : string) :
  let prefix := desktopScheme +:+ "://auth/callback?token=" in
  deepLinkOf token = prefix +:+ slice (String.length prefix) (deepLinkOf token)
  /\ Forall (fun c => count_char c (slice (String.length prefix) (deepLinkOf token))
                      = 0%nat) delimiters
  /\ decodeURIComponent (slice (String.length prefix) (deepLinkOf token)) = Some token.
Proof.
  intros prefix.
  assert (deepLinkOf token = prefix +:+ encodeURIComponent token) as Hlink.
  { unfold deepLinkOf, prefix. rewrite string_app_assoc. reflexivity. }
  rewrite Hlink, slice_app. repeat split.
  - apply encodeURIComponent_no_delimiter.
  - apply decode_encode.
Qed.

End RelayProperties.

(* ===================================================================== *)
(** * Further properties: [getWorkOS] and the token payload *)
(* ===================================================================== *)

(** X21.  [getWorkOS] builds the client once: after a call that returned a
    client, every later call returns that client and leaves it in place,
    whatever the environment has become; a call whose constructor throws
    leaves [workos] null, so the next call tries again. *)
Theorem getWorkOS_memoized (Client : Type) (newWorkOS : Env -> Error + Client)
    (workos : option Client) (e : Env) :
  (forall client, fst (getWorkOS Client newWorkOS workos e) = inr client ->
     snd (getWorkOS Client newWorkOS workos e) = Some client
     /\ forall (es : list Env) (e' : Env),
          getWorkOS Client newWorkOS
            (getWorkOS_calls Client newWorkOS (Some client) es) e'
          = (inr client, Some client))
  /\ (forall err, fst (getWorkOS Client newWorkOS workos e) = inl err ->
        workos = None /\ snd (getWorkOS Client newWorkOS workos e) = None).
Proof.
  split.
  - intros client Hc. split.
    + unfold getWorkOS in *. destruct workos as [c|]; simpl in *.
      * congruence.
      * destruct (newWorkOS e); simpl in *; congruence.
    + intros es e'.
      assert (getWorkOS_calls Client newWorkOS (Some client) es = Some client) as ->.
      { induction es as [|e0 es IH]; [reflexivity|exact IH]. }
      reflexivity.
  - intros err He. unfold getWorkOS in *. destruct workos as [c|]; simpl in *.
    + discriminate.
    + destruct (newWorkOS e); simpl in *; [auto|discriminate].
Qed.

Lemma split_head_truthy (s : string) :
  truthy (split_head "@" s) = truthy s && negb (startsWith "@" s).
Proof.
  destruct s as [|a s]; [reflexivity|].
  change (startsWith "@" (String a s)) with (Ascii.eqb "@" a && true).
  rewrite (Ascii.eqb_sym "@" a). cbn [split_head truthy].
  destruct (Ascii.eqb a "@"); reflexivity.
Qed.

Lemma split_head_count (c : ascii) (s : string) :
  count_char c (split_head c s) = 0%nat.
Proof.
  induction s as [|a s IH]; [reflexivity|].
  simpl. destruct (Ascii.eqb a c) eqn:E; [reflexivity|].
  simpl. rewrite E, IH. reflexivity.
Qed.

(** X22.  The edges of the token payload.  Its display name is empty
    exactly when the user has no first name and the email is empty or
    starts with [@]; a name taken from the email holds no [@]; its picture
    is the user's picture URL when that is a non-empty string and null
    otherwise, never the empty string. *)
Theorem token_payload_edges (user : User.t) :
  truthy (Payload.name (tokenPayload user)) =
    truthy_opt (User.firstName user)
    || (truthy (User.email user) && negb (startsWith "@" (User.email user)))
  /\ (truthy_opt (User.firstName user) = false ->
      count_char "@" (Payload.name (tokenPayload user)) = 0%nat)
  /\ (forall s, Payload.picture (tokenPayload user) = Some s ->
        truthy s = true /\ User.profilePictureUrl user = Some s)
  /\ (Payload.picture (tokenPayload user) = None <->
      truthy_opt (User.profilePictureUrl user) = false).
Proof.
  unfold tokenPayload. cbn [Payload.name Payload.picture].
  split; [|split; [|split]].
  - destruct (User.firstName user) as [f|]; simpl.
    + destruct f as [|a f]; simpl; [apply split_head_truthy|reflexivity].
    + apply split_head_truthy.
  - destruct (User.firstName user) as [f|]; simpl.
    + destruct (truthy f); [discriminate|]. intros _. apply split_head_count.
    + intros _. apply split_head_count.
  - intros s. unfold or_null.
    destruct (User.profilePictureUrl user) as [p|]; [|discriminate].
    destruct (truthy p) eqn:Tp; [|discriminate].
    intros H. inversion H; subst. auto.
  - unfold or_null.
    destruct (User.profilePictureUrl user) as [p|]; simpl; [|tauto].
    destruct (truthy p); split; auto; discriminate.
Qed.

(* ===================================================================== *)
(** * The further properties on concrete requests *)
(* ===================================================================== *)

(** X7 on a callback with a code the provider refuses. *)
Lemma callback_exchange_failed_witness :
  response_status (ref_callback req_bad_code 1000) = 500
  /\ provider_calls (ref_callback req_bad_code 1000) = 1%nat
  /\ existsb (is_cookie_cleared "oauth_nonce") (ref_callback req_bad_code 1000) = true
  /\ existsb (is_cookie_set "deskly_token") (ref_callback req_bad_code 1000) = false.
Proof.
  destruct (callback_exchange_failed (platform := reference) (sdk := reference_sdk) req_bad_code 1000
              (QStr "stale") {| source := JString "web"; device_id := JNull |}
              {| message := Some "invalid_grant" |}
              ltac:(vm_compute; reflexivity) eq_refl
              ltac:(vm_compute; reflexivity) eq_refl eq_refl)
    as (H1 & H2 & H3 & H4 & _).
  auto.
Defined.

(** X8 on a callback whose state is no JSON document and that brings no
    cookie: Bob is signed in. *)
Lemma callback_unparsed_state_witness :
  ref_callback req_bad_state 1000 =
    [ClearCookie "oauth_nonce" (Some "/auth/callback");
     AuthenticateWithCode (Some "client_01") "code-bob";
     Cookie "deskly_token" (ref_signToken Reference.bob 1000)
            (sessionCookie (platform := reference));
     Send (desktopCallbackPage Reference.bob
             (deepLinkOf (platform := reference) (ref_signToken Reference.bob 1000)))].
Proof.
  apply (callback_unparsed_state (platform := reference) (sdk := reference_sdk) req_bad_state 1000
           (QStr "code-bob") Reference.bob).
  - vm_compute. reflexivity.
  - reflexivity.
  - intros v Hv _.
    assert (v = QStr "not json") as -> by (vm_compute in Hv; congruence).
    reflexivity.
  - reflexivity.
  - reflexivity.
Defined.

(** X9 on the callback from the website. *)
Lemma callback_web_needs_nonce_witness :
  exists state parsed saved,
    query req_web !! "state" = Some state
    /\ Reference.JSON_parse (q_String state) = Some parsed
    /\ cookies req_web !! "oauth_nonce" = Some saved
    /\ truthy saved = true
    /\ getProp parsed "n" = Some (Some (JString saved))
    /\ getProp parsed "source" = Some (Some (JString "web")).
Proof.
  apply (callback_web_needs_nonce (platform := reference) (sdk := reference_sdk) req_web 1000).
  vm_compute. auto.
Defined.

(** X11 on a request with a Basic header and Ada's session cookie. *)
Lemma api_me_other_header_witness :
  ref_api_me req_basic_header 2000 = ref_api_me req_session_ada 2000.
Proof.
  apply (api_me_other_header (platform := reference) req_basic_header 2000
           "Basic dXNlcjpwYXNz"); reflexivity.
Defined.

Lemma req_web_sets_ada_cookie :
  In (Cookie "deskly_token" (ref_signToken Reference.ada 1000)
             (sessionCookie (platform := reference)))
     (ref_callback req_web 1000).
Proof. vm_compute. auto. Qed.

(** X13 on the cookie of the web callback, brought back as the session
    cookie. *)
Lemma session_cookie_honoured_witness :
  exists code user,
    query req_web !! "code" = Some code
    /\ Reference.authenticateWithCode (Some "client_01") (q_String code) = inr user
    /\ (forall t, t < 1000 + expiresIn ->
          ref_api_me req_session_ada t =
          [Json (UserBody (stamp (tokenPayload user) 1000 expiresIn))])
    /\ (forall t, 1000 + expiresIn <= t ->
          ref_api_me req_session_ada t =
          [Status 401; Json (ErrorBody "Invalid or expired token")]).
Proof.
  apply (session_cookie_honoured (platform := reference) (sdk := reference_sdk) reference_jwt_verify_sign
           req_web 1000 (ref_signToken Reference.ada 1000)
           (sessionCookie (platform := reference)) req_session_ada).
  - exact req_web_sets_ada_cookie.
  - reflexivity.
  - right. split; [vm_compute; reflexivity|]. intros h Hh. discriminate Hh.
Defined.

(** X14 on the same cookie and [/account]. *)
Lemma session_cookie_opens_account_witness :
  exists code user,
    query req_web !! "code" = Some code
    /\ Reference.authenticateWithCode (Some "client_01") (q_String code) = inr user
    /\ (forall t, t < 1000 + expiresIn ->
          account (platform := reference) req_session_ada t =
          [Send (accountPage (platform := reference)
                   (stamp (tokenPayload user) 1000 expiresIn))])
    /\ (forall t, 1000 + expiresIn <= t ->
          account (platform := reference) req_session_ada t =
          [Redirect "/auth/login?source=web"]).
Proof.
  apply (session_cookie_opens_account (platform := reference) (sdk := reference_sdk)
           reference_jwt_verify_sign
           req_web 1000 (ref_signToken Reference.ada 1000)
           (sessionCookie (platform := reference)) req_session_ada).
  - exact req_web_sets_ada_cookie.
  - reflexivity.
  - reflexivity.
  - reflexivity.
  - vm_compute. reflexivity.
Defined.

(** X18 on a login from the website that drew the nonce ["nonce-1"]. *)
Lemma login_then_callback_witness :
  checkState (platform := reference) req_after_login_web
             (query req_after_login_web !! "state") =
    Accepted {| source := JString "web"; device_id := JNull |}
  /\ redirects (ref_callback req_after_login_web 1000) = ["/account"].
Proof.
  split; [|vm_compute; reflexivity].
  destruct (login_then_callback (platform := reference) (imports := reference_login)
              reference_JSON_parse_empty req_login_web "nonce-1"
              ("https://api.workos.com/user_management/authorize?client_id=client_01"
               +:+ "&provider=authkit&redirect_uri="
               +:+ encodeURIComponent "https://deskly.in/auth/callback"
               +:+ "&response_type=code&state="
               +:+ encodeURIComponent
                     (ReferenceLogin.stringify (statePayload req_login_web "nonce-1")))
              req_after_login_web
              eq_refl ltac:(vm_compute; reflexivity) ltac:(vm_compute; reflexivity)
              ltac:(vm_compute; reflexivity) ltac:(vm_compute; reflexivity))
    as (_ & _ & _ & _ & Hcheck).
  exact Hcheck.
Defined.

(** X17 on the reference platform, in production with a secret, and on
    the development platform, which has none. *)
Lemma startup_key_witness :
  startup (platform := reference) = Some "s3cret"
  /\ JWT_SECRET (env (Platform := reference)) = Some "s3cret"
  /\ startup (platform := reference_dev) = Some "dev-secret-change-me".
Proof.
  destruct (startup_key (platform := reference)) as (_ & Hprod).
  destruct (startup_key (platform := reference_dev)) as (_ & Hdev).
  destruct (Hprod "s3cret" eq_refl) as (_ & _ & Hsecret & _).
  destruct (Hdev "dev-secret-change-me" eq_refl) as (_ & _ & _ & _ & _).
  split; [reflexivity|]. split; [exact (Hsecret eq_refl)|reflexivity].
Defined.

(** X21 on a client built with the key of the reference environment: later
    calls return it although the environment has lost its key. *)
Lemma getWorkOS_memoized_witness :
  getWorkOS string ref_newWorkOS
    (getWorkOS_calls string ref_newWorkOS (Some "sk_test_01")
       [Reference.env; env (Platform := reference_dev)])
    {| NODE_ENV := None; JWT_SECRET := None; DESKTOP_SCHEME := None;
       WORKOS_API_KEY := None; WORKOS_CLIENT_ID := None |}
  = (inr "sk_test_01", Some "sk_test_01").
Proof.
  destruct (getWorkOS_memoized string ref_newWorkOS None Reference.env)
    as (Hbuilt & _).
  destruct (Hbuilt "sk_test_01" eq_refl) as (_ & Hlater).
  apply Hlater.
Defined.

(** The callback where nothing reaches the provider: without a client, and
    with a code that [String] cannot convert, the answer is 500 after the
    nonce cookie was cleared, and no provider call was made. *)
Example callback_fails_before_the_call :
  response_status
    (auth_callback (platform := reference) (sdk := keyless_sdk) req_bad_state 1000) = 500
  /\ provider_calls
       (auth_callback (platform := reference) (sdk := keyless_sdk) req_bad_state 1000) = 0%nat
  /\ response_status (ref_callback req_object_code 1000) = 500
  /\ provider_calls (ref_callback req_object_code 1000) = 0%nat
  /\ existsb (is_cookie_cleared "oauth_nonce") (ref_callback req_object_code 1000) = true.
Proof. vm_compute. repeat split; reflexivity. Qed.
